(** * DemoWallet: a shallow embedding of [src/wallet.js]

    The module keeps an optimistic wallet cache ([balance], [reserved],
    [totalIncome]) in memory, refreshes it from a remote REST service and
    mirrors local updates to that service with fire-and-forget requests.

    The embedding follows the source function by function.

    - JavaScript numbers are IEEE-754 binary64 values, taken from the
      Standard Library's [SpecFloat] (one NaN, signed zeros, infinities).
    - JavaScript values (arguments, parsed JSON) are the inductive
      [JsValue]; strings are sequences of code units below 256.
    - Effects are threaded through a small state-and-exception monad over
      a [World]: the cache, [localStorage] and the list of remote requests
      issued so far.  A rejected promise and a synchronous [throw] are
      both the outcome [Throws]; an [await] runs its callee to completion
      (interleavings between concurrent operations are not modelled).
    - Everything the script takes from its surroundings (the [SB_CONFIG]
      object of sb-config.js, the answers of the remote service, the
      clock, and the runtime's decimal conversions) is a field of [Host]. *)

From Stdlib Require Import ZArith Bool List String Ascii Lia SpecFloat.
From Stdlib Require PrimFloat FloatOps.
From stdpp Require Import base option gmap strings.

(** Decimal literals of binary64 ([0.05%float]), to state constants of the
    source as they are written there; such a literal stands for the
    double nearest to it. *)
Import (notations) PrimFloat.
#[local] Set Warnings "-inexact-float".

Import ListNotations.
Local Open Scope string_scope.

(** ** Numbers *)

Module JsNumber.

Definition prec : Z := 53.
Definition emax : Z := 1024.

Definition number : Type := spec_float.

Definition NaN : number := S754_nan.

(** An integer literal of the source, as the double it denotes. *)
Definition ofZ (z : Z) : number := binary_normalize prec emax z 0 false.

(** The double nearest to a decimal literal [m * 2^e]. *)
Definition ofBits (m e : Z) : number := binary_normalize prec emax m e false.

Definition zero : number := ofZ 0.
Definition one : number := ofZ 1.

Definition add : number -> number -> number := SFadd prec emax.
Definition sub : number -> number -> number := SFsub prec emax.
Definition mul : number -> number -> number := SFmul prec emax.

(** [x < y], [x <= y], [x >= y] of the language: false as soon as one
    operand is NaN. *)
Definition lt (x y : number) : bool := SFltb x y.
Definition le (x y : number) : bool := SFleb x y.
Definition ge (x y : number) : bool := SFleb y x.
Definition gt (x y : number) : bool := SFltb y x.

Definition isNaN (x : number) : bool :=
  match x with S754_nan => true | _ => false end.

Definition isFinite (x : number) : bool :=
  match x with S754_nan | S754_infinity _ => false | _ => true end.

(** ToBoolean on a number: [+0], [-0] and NaN are falsy. *)
Definition truthy (x : number) : bool :=
  match x with S754_zero _ | S754_nan => false | _ => true end.

End JsNumber.

Import JsNumber.

(** ** Values *)

Unset Elimination Schemes.
Inductive JsValue : Type :=
| JUndefined
| JNull
| JBool (b : bool)
| JNumber (n : number)
| JString (s : string)
| JArray (elems : list JsValue)
| JObject (props : list (string * JsValue)).
Set Elimination Schemes.

Inductive JsError : Type :=
| TypeError
| SyntaxError
| SecurityError
| NetworkFailure
| Error (msg : string).

(** What the script is given by its surroundings. *)

Inductive Method : Type := GET | POST | PATCH.

Record Request : Type := mkRequest {
  req_method : Method;
  req_url : string;
  req_headers : list (string * string);
  (** the payload handed to [JSON.stringify], when there is a body *)
  req_body : option JsValue
}.

Record Response : Type := mkResponse {
  res_ok : bool;
  (** [res.json()]: [None] when the body is not JSON and the call rejects *)
  res_json : option JsValue;
  (** [res.text()]: [None] when reading the body rejects *)
  res_text : option string
}.

Inductive FetchOutcome : Type :=
| Failed                      (* the promise of [fetch] rejects *)
| Answered (r : Response).

Record Host : Type := mkHost {
  (** [SB_CONFIG.url] and [SB_CONFIG.headers()] *)
  SB_url : string;
  SB_headers : list (string * string);
  (** the remote service, answering a request by what it asks *)
  respond : Request -> FetchOutcome;
  (** [new Date().toISOString()] *)
  nowISO : string;
  (** runtime conversions; [encodeURIComponent] is total on strings of
      code units below 256, which hold no lone surrogate *)
  encodeURIComponent : string -> string;
  toLowerCase : string -> string;
  NumberToString : number -> string;
  StringToNumber : string -> number;
  (** the value of the longest prefix of a string that is a
      StrDecimalLiteral, for a string that has such a prefix *)
  DecimalPrefixValue : string -> number
}.

Module Js.
Section Conversions.

Context (host : Host).

Definition ToBoolean (v : JsValue) : bool :=
  match v with
  | JUndefined | JNull => false
  | JBool b => b
  | JNumber n => truthy n
  | JString s => negb (String.eqb s "")
  | JArray _ | JObject _ => true
  end.

(** [a || b] *)
Definition orElse (a b : JsValue) : JsValue := if ToBoolean a then a else b.

(** [String(v)] and the implicit ToString; an array joins its elements
    with commas, rendering [null] and [undefined] as the empty string. *)
Fixpoint ToString (v : JsValue) : string :=
  match v with
  | JUndefined => "undefined"
  | JNull => "null"
  | JBool true => "true"
  | JBool false => "false"
  | JNumber n => NumberToString host n
  | JString s => s
  | JArray elems =>
      (fix join (l : list JsValue) : string :=
         match l with
         | [] => ""
         | x :: r =>
             let sx := match x with
                       | JUndefined | JNull => ""
                       | _ => ToString x
                       end in
             match r with
             | [] => sx
             | _ :: _ => String.append sx (String.append "," (join r))
             end
         end) elems
  | JObject _ => "[object Object]"
  end.

(** [Number(v)] and the implicit ToNumber. *)
Definition ToNumber (v : JsValue) : number :=
  match v with
  | JUndefined => NaN
  | JNull => zero
  | JBool true => one
  | JBool false => zero
  | JNumber n => n
  | JString s => StringToNumber host s
  | JArray _ | JObject _ => StringToNumber host (ToString v)
  end.

Definition isWhiteSpace (c : ascii) : bool :=
  let n := nat_of_ascii c in
  (Nat.leb 9 n && Nat.leb n 13) || Nat.eqb n 32 || Nat.eqb n 160.

Fixpoint trimStart (s : string) : string :=
  match s with
  | String c r => if isWhiteSpace c then trimStart r else s
  | EmptyString => s
  end.

Definition isDigit (c : ascii) : bool :=
  let n := nat_of_ascii c in Nat.leb 48 n && Nat.leb n 57.

Definition dropSign (s : string) : string :=
  match s with
  | String "+" r | String "-" r => r
  | _ => s
  end.

(** Does some prefix of [s] satisfy the syntax of a StrDecimalLiteral? *)
Definition hasDecimalPrefix (s : string) : bool :=
  let u := dropSign s in
  String.prefix "Infinity" u ||
  match u with
  | String c r =>
      isDigit c ||
      (Ascii.eqb c "." && match r with String d _ => isDigit d | _ => false end)
  | EmptyString => false
  end.

(** The global [parseFloat]. *)
Definition parseFloat (v : JsValue) : number :=
  let s := trimStart (ToString v) in
  if hasDecimalPrefix s then DecimalPrefixValue host s else NaN.

Definition isArray (v : JsValue) : bool :=
  match v with JArray _ => true | _ => false end.

Definition elements (v : JsValue) : list JsValue :=
  match v with JArray l => l | _ => [] end.

(** [v[0]] on an array *)
Definition first (v : JsValue) : JsValue :=
  match v with JArray (x :: _) => x | _ => JUndefined end.

Fixpoint assoc (k : string) (props : list (string * JsValue)) : JsValue :=
  match props with
  | [] => JUndefined
  | (k', v) :: r => if String.eqb k k' then v else assoc k r
  end.

(** [v.k] for the property names the script reads (column names of the
    remote tables and option names); none of them is a member of a
    primitive wrapper or of an array.  Reading a property of [null] or
    [undefined] throws. *)
Definition getProp (v : JsValue) (k : string) : JsError + JsValue :=
  match v with
  | JUndefined | JNull => inl TypeError
  | JObject props => inr (assoc k props)
  | _ => inr JUndefined
  end.

(** [l.indexOf(v)] on an array of strings: strict equality, [-1] when
    absent. *)
Fixpoint indexOfFrom (i : Z) (l : list string) (v : JsValue) : Z :=
  match l with
  | [] => (-1)%Z
  | s :: r =>
      match v with
      | JString t => if String.eqb s t then i else indexOfFrom (i + 1)%Z r v
      | _ => indexOfFrom (i + 1)%Z r v
      end
  end.

Definition indexOf (l : list string) (v : JsValue) : Z := indexOfFrom 0%Z l v.

End Conversions.
End Js.

(** ** The world and its effects *)

(** [__walletCache] *)
Record WalletCache : Type := mkCache {
  balance : number;
  reserved : number;
  totalIncome : number
}.

(** [localStorage]; reading or writing may throw (storage disabled, quota
    exceeded). *)
Record LocalStorage : Type := mkStorage {
  ls_readable : bool;
  ls_writable : bool;
  ls_items : gmap string string
}.

Record World : Type := mkWorld {
  cache : WalletCache;
  storage : LocalStorage;
  (** the remote requests issued so far, oldest first *)
  requests : list Request
}.

Inductive Outcome (A : Type) : Type :=
| Returns (a : A)
| Throws (e : JsError).

Arguments Returns {A} a.
Arguments Throws {A} e.

Definition M (A : Type) : Type := World -> Outcome A * World.

Definition ret {A : Type} (a : A) : M A := fun w => (Returns a, w).

Definition throw {A : Type} (e : JsError) : M A := fun w => (Throws e, w).

Definition bind {A B : Type} (m : M A) (k : A -> M B) : M B :=
  fun w =>
    match m w with
    | (Returns a, w') => k a w'
    | (Throws e, w') => (Throws e, w')
    end.

(** [try { m } catch (e) { h e }]; what [m] did to the world before it
    threw stays done. *)
Definition tryCatch {A : Type} (m : M A) (h : JsError -> M A) : M A :=
  fun w =>
    match m w with
    | (Returns a, w') => (Returns a, w')
    | (Throws e, w') => h e w'
    end.

Declare Scope js_scope.
Delimit Scope js_scope with js.
Notation "'let*' x ':=' m 'in' k" := (bind m (fun x => k))
  (at level 10, x name, m at level 100, k at level 200) : js_scope.
Local Open Scope js_scope.

Definition lift {A : Type} (r : JsError + A) : M A :=
  match r with inl e => throw e | inr a => ret a end.

Definition getCache : M WalletCache := fun w => (Returns (cache w), w).

Definition setBalance (b : number) : M unit :=
  fun w =>
    (Returns tt,
     mkWorld (mkCache b (reserved (cache w)) (totalIncome (cache w)))
             (storage w) (requests w)).

Definition setReserved (r : number) : M unit :=
  fun w =>
    (Returns tt,
     mkWorld (mkCache (balance (cache w)) r (totalIncome (cache w)))
             (storage w) (requests w)).

Definition setTotalIncome (t : number) : M unit :=
  fun w =>
    (Returns tt,
     mkWorld (mkCache (balance (cache w)) (reserved (cache w)) t)
             (storage w) (requests w)).

(** [localStorage.getItem(k)]: the stored string, or [null]. *)
Definition getItem (k : string) : M (option string) :=
  fun w =>
    if ls_readable (storage w)
    then (Returns (ls_items (storage w) !! k), w)
    else (Throws SecurityError, w).

(** [localStorage.setItem(k, v)] *)
Definition setItem (k v : string) : M unit :=
  fun w =>
    if ls_writable (storage w)
    then (Returns tt,
          mkWorld (cache w)
                  (mkStorage (ls_readable (storage w)) (ls_writable (storage w))
                             (<[k := v]> (ls_items (storage w))))
                  (requests w))
    else (Throws SecurityError, w).

(** [s || null] on what [getItem] returned: the empty string is falsy. *)
Definition orNull (s : option string) : option string :=
  match s with
  | Some t => if String.eqb t "" then None else Some t
  | None => None
  end.

(** [headers: Object.assign({}, SB.headers(), { 'Prefer': v })] *)
Fixpoint assignHeader (k v : string) (hs : list (string * string))
  : list (string * string) :=
  match hs with
  | [] => [(k, v)]
  | (k', v') :: r =>
      if String.eqb k k' then (k, v) :: r else (k', v') :: assignHeader k v r
  end.

Section Effects.

Context (host : Host).

Definition record (r : Request) : World -> World :=
  fun w => mkWorld (cache w) (storage w) (requests w ++ [r]).

(** [await fetch(url, init)]: the request leaves, and the promise either
    rejects or yields the response. *)
Definition fetch (r : Request) : M Response :=
  fun w =>
    match respond host r with
    | Failed => (Throws NetworkFailure, record r w)
    | Answered res => (Returns res, record r w)
    end.

(** [fetch(url, init).catch(function () {})]: the request leaves and
    nobody looks at what comes back. *)
Definition fetchDetached (r : Request) : M unit :=
  fun w => (Returns tt, record r w).

(** [await res.json()] *)
Definition json (res : Response) : M JsValue :=
  match res_json res with
  | Some v => ret v
  | None => throw SyntaxError
  end.

(** [var userId = null;
     try { userId = localStorage.getItem('currentUserId') || null; } catch (e) {}]
    which opens every operation that talks to the remote side. *)
Definition currentUserId : M (option string) :=
  tryCatch (let* v := getItem "currentUserId" in ret (orNull v))
           (fun _ => ret None).

End Effects.

(** ** The operations of [DemoWallet] *)

(** [{balance, totalIncome}], what [withdraw] returns on success *)
Record WithdrawResult : Type := mkWithdrawResult {
  wr_balance : number;
  wr_totalIncome : number
}.

(** [{id, depth}], one entry of [getTeamSummary().members] *)
Record Member : Type := mkMember {
  member_id : JsValue;
  member_depth : JsValue
}.

Record TeamSummary : Type := mkTeamSummary {
  members : list Member
}.

Record TierRule : Type := mkTierRule {
  minBalance : number;
  minUsers : number
}.

Record VipInfo : Type := mkVipInfo {
  currentLevel : JsValue;
  nextLevel : option string;
  isActivated : bool;
  isFunded : bool;
  isLocked : bool;
  vip_balance : number;
  effectiveUsers : nat;
  rulesByLevel : list (string * TierRule)
}.

(** [{id, phone}] *)
Record User : Type := mkUser {
  user_id : option string;
  user_phone : option string
}.

(** [0.05]: the double nearest to it, [0x1.999999999999ap-5]. *)
Definition feeRate : number := ofBits 7205759403792794 (-57).

(** [var order = ['V0','V1','V2','V3','V4','V5','V6'];] *)
Definition order : list string := ["V0"; "V1"; "V2"; "V3"; "V4"; "V5"; "V6"].

(** [order[i]] for an index inside the array *)
Definition orderAt (i : Z) : option string := order !! Z.to_nat i.

Module Wallet.
Section Operations.

Context (host : Host).

Abbreviation ToNumber := (Js.ToNumber host).
Abbreviation ToString := (Js.ToString host).
Abbreviation parseFloat := (Js.parseFloat host).

Definition prop (v : JsValue) (k : string) : M JsValue := lift (Js.getProp v k).

Definition preferRepresentation : list (string * string) :=
  assignHeader "Prefer" "return=representation" (SB_headers host).

(** The initial [__walletCache], before the stored income is read back. *)
Definition initialCache : WalletCache := mkCache zero zero zero.

(** The read of [refreshWallet]:
    [fetch(url, { method: 'GET', headers: SB.headers() })]. *)
Definition refreshRequest (uid : string) : Request :=
  let url := SB_url host +:+ "/rest/v1/wallet_balances"
             +:+ "?select=usdt_balance,usdt_reserved"
             +:+ "&user_id=eq." +:+ encodeURIComponent host uid
             +:+ "&limit=1" in
  mkRequest GET url (SB_headers host) None.

Definition refreshWallet : M unit :=
  let* userId := currentUserId in
  match userId with
  | None => ret tt
  | Some uid =>
      tryCatch
        (let* res := fetch host (refreshRequest uid) in
         if negb (res_ok res) then ret tt else
         let* rows := json res in
         if Js.isArray rows && negb (Nat.eqb (List.length (Js.elements rows)) 0)
         then
           let row := Js.first rows in
           let* b := prop row "usdt_balance" in
           let bal := parseFloat b in
           let* r := prop row "usdt_reserved" in
           let resv := parseFloat r in
           let* _ := (if negb (isNaN bal) then setBalance bal else ret tt) in
           if negb (isNaN resv) then setReserved resv else ret tt
         else ret tt)
        (fun _ => ret tt)
  end.

Definition getWalletSync : M WalletCache :=
  let* c := getCache in
  ret (mkCache (balance c) (reserved c) (totalIncome c)).

Definition getWalletAsync : M WalletCache :=
  let* _ := refreshWallet in
  getWalletSync.

(** [rows.map(function (r) { return { id: r.descendant_id, depth: r.depth }; })] *)
Fixpoint mapRows (rows : list JsValue) : M (list Member) :=
  match rows with
  | [] => ret []
  | r :: rows' =>
      let* i := prop r "descendant_id" in
      let* d := prop r "depth" in
      let* ms := mapRows rows' in
      ret (mkMember i d :: ms)
  end.

(** The read of [getTeamSummary]. *)
Definition teamRequest (uid : string) : Request :=
  let url := SB_url host +:+ "/rest/v1/invite_edges"
             +:+ "?select=descendant_id,depth"
             +:+ "&ancestor_id=eq." +:+ encodeURIComponent host uid
             +:+ "&depth=lt.4" in
  mkRequest GET url (SB_headers host) None.

Definition getTeamSummary : M TeamSummary :=
  let* userId := currentUserId in
  match userId with
  | None => ret (mkTeamSummary [])
  | Some uid =>
      let* res := fetch host (teamRequest uid) in
      if negb (res_ok res) then ret (mkTeamSummary []) else
      let* rows := json res in
      let rows := if Js.isArray rows then Js.elements rows else [] in
      let* ms := mapRows rows in
      ret (mkTeamSummary ms)
  end.

(** [m.depth && m.depth >= 1], as the filter's verdict *)
Definition countsAsEffective (m : Member) : bool :=
  Js.ToBoolean (member_depth m) && ge (ToNumber (member_depth m)) one.

Definition rules : list (string * TierRule) :=
  [ ("V1", mkTierRule (ofZ 50) (ofZ 0));
    ("V2", mkTierRule (ofZ 500) (ofZ 5));
    ("V3", mkTierRule (ofZ 3000) (ofZ 10));
    ("V4", mkTierRule (ofZ 10000) (ofZ 30));
    ("V5", mkTierRule (ofZ 30000) (ofZ 50));
    ("V6", mkTierRule (ofZ 100000) (ofZ 75)) ].

(** [var idx = order.indexOf(level); var next = null;
     if (idx >= 0 && idx < order.length - 1) next = order[idx + 1];] *)
Definition nextOf (level : JsValue) : option string :=
  let idx := Js.indexOf order level in
  if (0 <=? idx)%Z && (idx <? Z.of_nat (List.length order) - 1)%Z
  then orderAt (idx + 1)
  else None.

(** The membership-state read of [getVipInfo]. *)
Definition userStateRequest (uid : string) : Request :=
  let url := SB_url host +:+ "/rest/v1/user_state"
             +:+ "?select=current_level,is_activated,is_funded,is_locked"
             +:+ "&user_id=eq." +:+ encodeURIComponent host uid
             +:+ "&limit=1" in
  mkRequest GET url (SB_headers host) None.

Definition getVipInfo : M VipInfo :=
  let* userId := currentUserId in
  match userId with
  | None =>
      ret (mkVipInfo (JString "V0") None false false false zero 0 [])
  | Some uid =>
      let* res := fetch host (userStateRequest uid) in
      let* stateRows := (if res_ok res then json res else ret (JArray [])) in
      let state :=
        if Js.isArray stateRows && Js.ToBoolean (Js.first stateRows)
        then Js.first stateRows else JObject [] in
      let* balanceObj := getWalletAsync in
      let* team := getTeamSummary in
      let effUsers := List.length (List.filter countsAsEffective (members team)) in
      let* current_level := prop state "current_level" in
      let next := nextOf (Js.orElse current_level (JString "V0")) in
      let* is_activated := prop state "is_activated" in
      let* is_funded := prop state "is_funded" in
      let* is_locked := prop state "is_locked" in
      ret (mkVipInfo (Js.orElse current_level (JString "V0"))
                     next
                     (Js.ToBoolean is_activated)
                     (Js.ToBoolean is_funded)
                     (Js.ToBoolean is_locked)
                     (balance balanceObj)
                     effUsers
                     rules)
  end.

(** The read of [listPayoutAddresses]. *)
Definition payoutAddressesRequest (uid : string) : Request :=
  let url := SB_url host +:+ "/rest/v1/user_payout_addresses"
             +:+ "?select=currency,network,address,is_locked,locked_at"
             +:+ "&user_id=eq." +:+ encodeURIComponent host uid in
  mkRequest GET url (SB_headers host) None.

Definition listPayoutAddresses : M (list JsValue) :=
  let* userId := currentUserId in
  match userId with
  | None => ret []
  | Some uid =>
      let* res := fetch host (payoutAddressesRequest uid) in
      if negb (res_ok res) then ret [] else
      let* rows := json res in
      ret (if Js.isArray rows then Js.elements rows else [])
  end.

(** [try { msg = await res.text(); } catch (_) {}  throw new Error(msg || dflt)] *)
Definition failWithBody {A : Type} (res : Response) (dflt : string) : M A :=
  match orNull (res_text res) with
  | Some msg => throw (Error msg)
  | None => throw (Error dflt)
  end.

(** [Array.isArray(data) && data.length ? data[0] : null] *)
Definition firstOrNull (data : JsValue) : JsValue :=
  if Js.isArray data && negb (Nat.eqb (List.length (Js.elements data)) 0)
  then Js.first data else JNull.

Definition addPayoutAddress (currency network address : JsValue) : M JsValue :=
  let* userId := currentUserId in
  match userId with
  | None => throw (Error "Not logged in")
  | Some uid =>
      let payload := JObject
        [ ("user_id", JString uid);
          ("currency", JString (toLowerCase host (ToString (Js.orElse currency (JString "")))));
          ("network", JString (toLowerCase host (ToString (Js.orElse network (JString "")))));
          ("address", JString (ToString (Js.orElse address (JString "")))) ] in
      let* res := fetch host (mkRequest POST (SB_url host +:+ "/rest/v1/user_payout_addresses")
                                        preferRepresentation (Some payload)) in
      if negb (res_ok res) then failWithBody res "Failed to add address" else
      let* data := json res in
      ret (firstOrNull data)
  end.

Definition requestWithdraw (opts : JsValue) : M JsValue :=
  let* userId := currentUserId in
  match userId with
  | None => throw (Error "Not logged in")
  | Some uid =>
      let* currency := prop opts "currency" in
      let* network := prop opts "network" in
      let* address := prop opts "address" in
      let* amount := prop opts "amount" in
      let* fee := prop opts "fee" in
      let payload := JObject
        [ ("user_id", JString uid);
          ("currency", JString (toLowerCase host (ToString (Js.orElse currency (JString "")))));
          ("network", JString (toLowerCase host (ToString (Js.orElse network (JString "")))));
          ("to_address", JString (ToString (Js.orElse address (JString ""))));
          ("amount", JNumber (ToNumber amount));
          ("address", JString (ToString (Js.orElse address (JString ""))));
          ("fee", JNumber (match fee with
                           | JUndefined | JNull => zero
                           | _ => ToNumber fee
                           end)) ] in
      let* res := fetch host (mkRequest POST (SB_url host +:+ "/rest/v1/withdraw_requests")
                                        preferRepresentation (Some payload)) in
      if negb (res_ok res) then failWithBody res "Withdrawal failed" else
      let* data := json res in
      ret (firstOrNull data)
  end.

Definition recordDeposit (amount currency : JsValue) : M unit :=
  let amt := ToNumber amount in
  if negb (truthy amt) || negb (isFinite amt) || le amt zero then ret tt else
  let* c := getCache in
  let* _ := setBalance (add (balance c) amt) in
  let* userId := currentUserId in
  match userId with
  | None => ret tt
  | Some uid =>
      let updateUrl := SB_url host +:+ "/rest/v1/wallet_balances?user_id=eq."
                       +:+ encodeURIComponent host uid in
      let* c' := getCache in
      let patch := JObject [ ("usdt_balance", JNumber (balance c'));
                             ("updated_at", JString (nowISO host)) ] in
      fetchDetached (mkRequest PATCH updateUrl (SB_headers host) (Some patch))
  end.

Definition submitDepositTx (txHash network currency : JsValue) : M unit :=
  let* userId := currentUserId in
  match userId with
  | None => ret tt
  | Some uid =>
      if negb (Js.ToBoolean txHash) then ret tt else
      let payload := JObject
        [ ("user_id", JString uid);
          ("provider", JString "manual");
          ("payment_id", txHash);
          ("currency", JString (toLowerCase host (ToString (Js.orElse currency (JString "usdt")))));
          ("network", JString (toLowerCase host (ToString (Js.orElse network (JString "bep20")))));
          ("amount", JNumber zero);
          ("status", JString "confirmed") ] in
      fetchDetached (mkRequest POST (SB_url host +:+ "/rest/v1/deposit_ledger")
                               preferRepresentation (Some payload))
  end.

Definition addIncome (n : JsValue) : M unit :=
  let inc := ToNumber n in
  let inc := if negb (truthy inc) || negb (isFinite inc) || le inc zero
             then one else inc in
  let* c := getCache in
  let* _ := setTotalIncome (add (totalIncome c) inc) in
  let* c' := getCache in
  tryCatch (setItem "aiIncome" (ToString (JNumber (totalIncome c'))))
           (fun _ => ret tt).

Definition withdraw (amount : JsValue) : M (option WithdrawResult) :=
  let amt := ToNumber amount in
  if negb (truthy amt) || negb (isFinite amt) || le amt zero then ret None else
  let fee := mul amt feeRate in
  let toDeduct := add amt fee in
  let* c := getCache in
  if lt (balance c) amt then ret None else
  let* _ := setBalance (sub (balance c) amt) in
  let* userId := currentUserId in
  let* _ :=
    match userId with
    | Some uid =>
        let patchUrl := SB_url host +:+ "/rest/v1/wallet_balances?user_id=eq."
                        +:+ encodeURIComponent host uid in
        let* c' := getCache in
        let patch := JObject [ ("usdt_balance", JNumber (balance c'));
                               ("updated_at", JString (nowISO host)) ] in
        let* _ := fetchDetached (mkRequest PATCH patchUrl (SB_headers host) (Some patch)) in
        let payload := JObject
          [ ("user_id", JString uid);
            ("currency", JString "usdt");
            ("network", JString "trc20");
            ("to_address", JString "");
            ("amount", JNumber amt);
            ("fee", JNumber fee);
            ("address", JString "") ] in
        fetchDetached (mkRequest POST (SB_url host +:+ "/rest/v1/withdraw_requests")
                                 preferRepresentation (Some payload))
    | None => ret tt
    end in
  let* c'' := getCache in
  ret (Some (mkWithdrawResult (balance c'') (totalIncome c''))).

(** Both reads sit in one [try]; in this model of the storage they fail
    together. *)
Definition getUser : M User :=
  tryCatch
    (let* uid := getItem "currentUserId" in
     let* phone := getItem "currentPhone" in
     ret (mkUser (orNull uid) (orNull phone)))
    (fun _ => ret (mkUser None None)).

End Operations.
End Wallet.

(** ** Vocabulary of the statements *)

(** The current user id as every operation reads it: absent when the
    storage cannot be read, holds nothing under [currentUserId], or holds
    the empty string. *)
Definition identity (w : World) : option string :=
  if ls_readable (storage w)
  then orNull (ls_items (storage w) !! "currentUserId")
  else None.

Definition outcome {A : Type} (m : M A) (w : World) : Outcome A := fst (m w).

Definition after {A : Type} (m : M A) (w : World) : World := snd (m w).

(** [isFinite(a) && a > 0] *)
Definition positiveFinite (a : number) : bool := isFinite a && gt a zero.

(** A field of the payload a request carries. *)
Definition payloadField (k : string) (r : Request) : JsValue :=
  match req_body r with
  | Some (JObject props) => Js.assoc k props
  | _ => JUndefined
  end.

(** The creation of a row of [withdraw_requests]. *)
Definition isWithdrawRequest (host : Host) (r : Request) : Prop :=
  req_method r = POST /\ req_url r = SB_url host +:+ "/rest/v1/withdraw_requests".

(** The same surroundings with another remote side. *)
Definition withRespond (host : Host) (f : Request -> FetchOutcome) : Host :=
  mkHost (SB_url host) (SB_headers host) f (nowISO host)
         (encodeURIComponent host) (toLowerCase host) (NumberToString host)
         (StringToNumber host) (DecimalPrefixValue host).

(** The successor in the sequence V0, V1, ..., V6 as the specification
    words it: the tier that follows, nothing after V6, nothing for a
    level outside the sequence. *)
Definition successorInSequence (level : JsValue) : option string :=
  match level with
  | JString s =>
      if String.eqb s "V0" then Some "V1"
      else if String.eqb s "V1" then Some "V2"
      else if String.eqb s "V2" then Some "V3"
      else if String.eqb s "V3" then Some "V4"
      else if String.eqb s "V4" then Some "V5"
      else if String.eqb s "V5" then Some "V6"
      else None
  | _ => None
  end.

(** A read fails: the transport gives up, the answer is not a success,
    or its body is not JSON. *)
Definition readFails (o : FetchOutcome) : bool :=
  match o with
  | Failed => true
  | Answered res =>
      negb (res_ok res) || match res_json res with None => true | Some _ => false end
  end.

(** [v.k], with [undefined] where the read would throw. *)
Definition propOr (v : JsValue) (k : string) : JsValue :=
  match Js.getProp v k with inr x => x | inl _ => JUndefined end.

(** A row of [invite_edges] that is an object (not [null]). *)
Definition isRow (v : JsValue) : bool :=
  match v with JUndefined | JNull => false | _ => true end.

Definition memberOfRow (r : JsValue) : Member :=
  mkMember (propOr r "descendant_id") (propOr r "depth").

(** [d < 4] on a depth as it came from the remote side. *)
Definition depthBelow4 (host : Host) (d : JsValue) : bool :=
  lt (Js.ToNumber host d) (ofZ 4).

(** The twelve entries of [window.DemoWallet], with their arguments. *)
Inductive Call : Type :=
| CallGetWallet
| CallGetWalletAsync
| CallGetVipInfo
| CallGetTeamSummary
| CallListPayoutAddresses
| CallAddPayoutAddress (currency network address : JsValue)
| CallRequestWithdraw (opts : JsValue)
| CallRecordDeposit (amount currency : JsValue)
| CallSubmitDepositTx (txHash network currency : JsValue)
| CallWithdraw (amount : JsValue)
| CallAddIncome (n : JsValue)
| CallGetUser.

Definition discard {A : Type} (m : M A) : M unit := let* _ := m in ret tt.

(** One call of the public interface, its result dropped. *)
Definition perform (host : Host) (c : Call) : M unit :=
  match c with
  | CallGetWallet => discard Wallet.getWalletSync
  | CallGetWalletAsync => discard (Wallet.getWalletAsync host)
  | CallGetVipInfo => discard (Wallet.getVipInfo host)
  | CallGetTeamSummary => discard (Wallet.getTeamSummary host)
  | CallListPayoutAddresses => discard (Wallet.listPayoutAddresses host)
  | CallAddPayoutAddress c n a => discard (Wallet.addPayoutAddress host c n a)
  | CallRequestWithdraw opts => discard (Wallet.requestWithdraw host opts)
  | CallRecordDeposit a c => Wallet.recordDeposit host a c
  | CallSubmitDepositTx t n c => Wallet.submitDepositTx host t n c
  | CallWithdraw a => discard (Wallet.withdraw host a)
  | CallAddIncome n => Wallet.addIncome host n
  | CallGetUser => discard Wallet.getUser
  end.

(** The calls that update the cache on their own, whoever is signed in. *)
Definition isLocalUpdate (c : Call) : bool :=
  match c with
  | CallRecordDeposit _ _ | CallWithdraw _ | CallAddIncome _ => true
  | _ => false
  end.

(** The rows a read of [invite_edges] was answered with. *)
Definition answeredRows (o : FetchOutcome) : list JsValue :=
  match o with
  | Answered res =>
      if res_ok res
      then match res_json res with Some (JArray rows) => rows | _ => [] end
      else []
  | Failed => []
  end.

(** ** Sample surroundings, for concrete runs *)

(** Decimal conversions on the few strings the runs below meet. *)
Definition sampleDecimal (s : string) : number :=
  if String.eqb s "100" then ofZ 100
  else if String.eqb s "7.5" then ofBits 15 (-1)
  else zero.

Definition sampleHost (remote : Request -> FetchOutcome) : Host :=
  mkHost "https://sb.example" [("apikey", "k")] remote
         "2024-01-01T00:00:00.000Z"
         (fun s => s) (fun s => s) (fun _ => "100") sampleDecimal sampleDecimal.

Definition unreachable : Request -> FetchOutcome := fun _ => Failed.

Definition answering (ok : bool) (body : option JsValue) : Request -> FetchOutcome :=
  fun _ => Answered (mkResponse ok body (Some "")).

(** A remote side that answers every read with one row. *)
Definition answeringRow (row : list (string * JsValue)) : Request -> FetchOutcome :=
  answering true (Some (JArray [JObject row])).

(** A remote side whose rows carry a level, a balance and an edge. *)
Definition vipHost : Host :=
  sampleHost (answeringRow [ ("current_level", JString "V3");
                             ("is_activated", JBool true);
                             ("usdt_balance", JString "100");
                             ("descendant_id", JString "d1");
                             ("depth", JNumber (ofZ 1)) ]).

(** A remote side that answers with an edge of depth 5, whatever the
    query asked for. *)
Definition deepHost : Host :=
  sampleHost (answeringRow [ ("descendant_id", JString "d9");
                             ("depth", JNumber (ofZ 5)) ]).


(** A remote side that refuses every request. *)
Definition refusingHost : Host := sampleHost (answering false None).

(** A signed-in session with a balance of 100. *)
Definition signedIn : World :=
  mkWorld (mkCache (ofZ 100) (ofZ 5) (ofZ 3))
          (mkStorage true true {[ "currentUserId" := "u1" ]})
          [].

(** The same cache with nobody signed in. *)
Definition anonymous : World :=
  mkWorld (mkCache (ofZ 100) (ofZ 5) (ofZ 3))
          (mkStorage true true ∅)
          [].

From Stdlib Require DecimalString DecimalN.

(** ** Module load *)

(** The value of a decimal digit. *)
Definition digitValue (c : ascii) : Z := Z.of_nat (nat_of_ascii c) - 48.

(** The integer written by the leading run of decimal digits, when there
    is one. *)
Fixpoint readDigits (s : string) (acc : option Z) : option Z :=
  match s with
  | String c r =>
      if Js.isDigit c
      then readDigits r (Some (10 * match acc with Some n => n | None => 0 end
                               + digitValue c)%Z)
      else acc
  | EmptyString => acc
  end.

(** [parseInt(s, 10)] on a string: leading white space and one sign are
    skipped, the digits that follow are read, anything after them is
    ignored; no digit gives NaN, the integer read is rounded to the
    nearest double, and a zero keeps the sign that was written. *)
Definition parseInt10 (s : string) : number :=
  let t := Js.trimStart s in
  let negative := match t with String "-" _ => true | _ => false end in
  match readDigits (Js.dropSign t) None with
  | None => NaN
  | Some Z0 => S754_zero negative
  | Some n => binary_normalize prec emax (if negative then (- n)%Z else n) 0 false
  end.

(** [try { var storedInc = localStorage.getItem('aiIncome');
          if (storedInc != null) { var n = parseInt(storedInc, 10);
                                   if (!isNaN(n)) __walletCache.totalIncome = n; }
        } catch (_) {}] *)
Definition loadTotalIncome : M unit :=
  tryCatch
    (let* storedInc := getItem "aiIncome" in
     match storedInc with
     | Some s =>
         let n := parseInt10 s in
         if negb (isNaN n) then setTotalIncome n else ret tt
     | None => ret tt
     end)
    (fun _ => ret tt).

(** The script as it loads over a given [localStorage]: the cache is
    created, the stored income is read back, and [refreshWallet()] is
    started (run here to its end). *)
Definition loadModule (host : Host) (st : LocalStorage) : World :=
  after (let* _ := loadTotalIncome in Wallet.refreshWallet host)
        (mkWorld Wallet.initialCache st []).

(** The decimal numeral of a natural number, as the Standard Library
    prints it: ["0"], ["7"], ["1250"]. *)
Definition decimal (n : N) : string :=
  DecimalString.NilZero.string_of_uint (N.to_uint n).

(** ** More vocabulary *)

(** A run keeps a property of the world. *)
Definition keeps {A : Type} (P : World -> Prop) (m : M A) : Prop :=
  forall w, P w -> P (after m w).

(** A property that does not look at the request log, or at a field of
    the cache. *)
Definition ignoresRequests (P : World -> Prop) : Prop :=
  forall w r, P w -> P (record r w).

Definition ignoresBalance (P : World -> Prop) : Prop :=
  forall w b, P w ->
    P (mkWorld (mkCache b (reserved (cache w)) (totalIncome (cache w)))
               (storage w) (requests w)).

Definition ignoresReserved (P : World -> Prop) : Prop :=
  forall w r, P w ->
    P (mkWorld (mkCache (balance (cache w)) r (totalIncome (cache w)))
               (storage w) (requests w)).

Definition isAddIncome (c : Call) : bool :=
  match c with CallAddIncome _ => true | _ => false end.

(** The calls that change the balance on their own. *)
Definition isBalanceUpdate (c : Call) : bool :=
  match c with CallRecordDeposit _ _ | CallWithdraw _ => true | _ => false end.

(** A run sends at most [n] requests, and only adds to the log. *)
Definition sendsAtMost {A : Type} (n : nat) (m : M A) : Prop :=
  forall w, exists sent,
    requests (after m w) = (requests w ++ sent)%list /\ (List.length sent <= n)%nat.

(** No field of the cache is NaN. *)
Definition numericCache (c : WalletCache) : Prop :=
  isNaN (balance c) = false /\ isNaN (reserved c) = false
  /\ isNaN (totalIncome c) = false.

(** A double as the runtime holds it: a canonical mantissa and exponent. *)
Definition isDouble (x : number) : bool := valid_binary prec emax x.

(** The calls that refresh the cache from the remote side. *)
Definition isRefreshing (c : Call) : bool :=
  match c with
  | CallGetWalletAsync | CallGetVipInfo => true
  | _ => false
  end.

(** The most requests a call can issue. *)
Definition requestBudget (c : Call) : nat :=
  match c with
  | CallGetWallet | CallAddIncome _ | CallGetUser => 0
  | CallGetVipInfo => 3
  | CallWithdraw _ => 2
  | _ => 1
  end.

(** Number-to-string conversion on the few totals the runs below meet. *)
Definition sampleNumberString (x : number) : string :=
  if SFeqb x (ofZ 4) then "4"
  else if SFeqb x (ofZ 5) then "5"
  else if SFeqb x (ofZ 100) then "100"
  else "0".

(** Surroundings whose remote side answers like [vipHost] and whose
    runtime prints those totals. *)
Definition printingHost : Host :=
  mkHost (SB_url vipHost) (SB_headers vipHost) (respond vipHost) (nowISO vipHost)
         (encodeURIComponent vipHost) (toLowerCase vipHost) sampleNumberString
         (StringToNumber vipHost) (DecimalPrefixValue vipHost).

(** A storage that holds an income written by an earlier session. *)
Definition storedIncome (s : string) : LocalStorage :=
  mkStorage true true {[ "aiIncome" := s ]}.

(** * Properties *)

(** ** Numbers *)

Lemma SFcompare_swap (x y : number) :
  SFcompare y x = option_map CompOpp (SFcompare x y).
Proof.
  destruct x as [sx | sx | | sx mx ex], y as [sy | sy | | sy my ey];
    cbn; try reflexivity;
    try (destruct sx; reflexivity); try (destruct sy; reflexivity);
    try (destruct sx, sy; reflexivity).
  destruct sx, sy; cbn; try reflexivity;
    rewrite (Z.compare_antisym ey ex);
    destruct (ey ?= ex)%Z; cbn; try reflexivity;
    rewrite (Pos.compare_cont_antisym mx my Eq); reflexivity.
Qed.

Lemma ge_not_lt (b a : number) : ge b a = true -> lt b a = false.
Proof.
  unfold ge, lt, SFleb, SFltb. rewrite (SFcompare_swap a b).
  destruct (SFcompare a b) as [[] |]; cbn; congruence.
Qed.

Lemma mul_comm (x y : number) : mul x y = mul y x.
Proof.
  destruct x as [sx | sx | | sx mx ex], y as [sy | sy | | sy my ey];
    cbn; try reflexivity; try (f_equal; apply xorb_comm).
  rewrite (Pos.mul_comm mx my), (Z.add_comm ex ey), (xorb_comm sx sy).
  reflexivity.
Qed.

(** The guard [!amt || !isFinite(amt) || amt <= 0] lets through exactly
    the positive finite numbers. *)
Lemma guard_positiveFinite (a : number) :
  negb (truthy a) || negb (isFinite a) || le a zero = negb (positiveFinite a).
Proof. destruct a as [[] | [] | | [] m e]; reflexivity. Qed.

Lemma not_positiveFinite (a : number) :
  le a zero = true \/ isFinite a = false -> positiveFinite a = false.
Proof.
  destruct a as [[] | [] | | [] m e]; cbn; intros [H | H];
    try reflexivity; discriminate.
Qed.

(** ** The identity *)

Lemma currentUserId_identity (w : World) :
  currentUserId w = (Returns (identity w), w).
Proof.
  unfold currentUserId, tryCatch, bind, getItem, identity, ret.
  destruct (ls_readable (storage w)); reflexivity.
Qed.

(** ** Runs *)

Lemma bind_Returns {A B : Type} (m : M A) (k : A -> M B) (w w' : World) (b : B) :
  bind m k w = (Returns b, w') ->
  exists a w1, m w = (Returns a, w1) /\ k a w1 = (Returns b, w').
Proof.
  unfold bind. destruct (m w) as [[a | e] w1]; intros H.
  - exists a, w1. split; [reflexivity | exact H].
  - discriminate H.
Qed.

Lemma ret_Returns {A : Type} (a b : A) (w w' : World) :
  ret a w = (Returns b, w') -> a = b /\ w = w'.
Proof. unfold ret. intros H. injection H as -> ->. split; reflexivity. Qed.

Lemma bind_run {A B : Type} (m : M A) (k : A -> M B) (w w' : World) (a : A) :
  m w = (Returns a, w') -> bind m k w = k a w'.
Proof. unfold bind. intros ->. reflexivity. Qed.

Lemma bind_throw {A B : Type} (m : M A) (k : A -> M B) (w w' : World) (e : JsError) :
  m w = (Throws e, w') -> bind m k w = (Throws e, w').
Proof. unfold bind. intros ->. reflexivity. Qed.

(** Peel the binds off a run that returned. *)
Ltac invert_run H :=
  repeat match type of H with
         | context [currentUserId _] => rewrite currentUserId_identity in H
         | bind _ _ _ = (Returns _, _) =>
             let a := fresh "a" in
             let w1 := fresh "w" in
             let H1 := fresh "Hstep" in
             apply bind_Returns in H; destruct H as (a & w1 & H1 & H)
         end.

Lemma identity_storage (w1 w2 : World) :
  storage w1 = storage w2 -> identity w1 = identity w2.
Proof. unfold identity. intros ->. reflexivity. Qed.

Lemma after_discard {A : Type} (m : M A) (w : World) :
  after (discard m) w = after m w.
Proof.
  unfold after, discard, bind, ret.
  destruct (m w) as [[a | e] w']; reflexivity.
Qed.

(** ** Withdrawals *)

(** The constant of [fee = amt * 0.05] is the source's literal: the
    binary64 value that the decimal [0.05] denotes. *)
Lemma feeRate_literal : feeRate = FloatOps.Prim2SF 0.05%float.
Proof. vm_compute. reflexivity. Qed.

(** That value is [m * 2^-57] with a 53-bit [m], and no other double is as
    near to 1/20: [|20 m - 2^57| < 10], that is, it lies within less than
    half a unit in the last place of 1/20. *)
Lemma feeRate_nearest_twentieth :
  feeRate = S754_finite false 7205759403792794 (-57)
  /\ (2 ^ 52 <= 7205759403792794 < 2 ^ 53)%Z
  /\ (Z.abs (20 * 7205759403792794 - 2 ^ 57) < 10)%Z.
Proof. split; [vm_compute; reflexivity | split; lia]. Qed.

(** C1.  For every amount whose [Number(amount)] is positive and finite,
    on a cache whose balance [B] satisfies [B >= amount], [withdraw]
    returns the snapshot with balance [B - amount]: the fee is not taken
    from the cache, whose [reserved] and [totalIncome] stay.  Every
    withdraw request it sends carries [fee = amount * 0.05], the product
    of doubles with the binary64 value of the decimal literal [0.05]; one
    is sent when somebody is signed in, and nothing is sent otherwise. *)
Theorem withdraw_deducts_amount_not_fee (host : Host) (w : World) (amount : JsValue) :
  let a := Js.ToNumber host amount in
  let B := balance (cache w) in
  positiveFinite a = true ->
  ge B a = true ->
  exists w' sent,
    Wallet.withdraw host amount w
      = (Returns (Some (mkWithdrawResult (sub B a) (totalIncome (cache w)))), w')
    /\ cache w' = mkCache (sub B a) (reserved (cache w)) (totalIncome (cache w))
    /\ requests w' = (requests w ++ sent)%list
    /\ (forall r, In r sent -> isWithdrawRequest host r ->
          payloadField "fee" r = JNumber (mul a (FloatOps.Prim2SF 0.05%float)))
    /\ (forall uid, identity w = Some uid ->
          exists r, In r sent /\ isWithdrawRequest host r
                    /\ payloadField "amount" r = JNumber a)
    /\ (identity w = None -> sent = []).
Proof.
  intros a B Hpos Hge.
  unfold Wallet.withdraw. fold a.
  rewrite guard_positiveFinite, Hpos. cbn [negb].
  unfold bind at 1. unfold getCache at 1. fold B.
  rewrite (ge_not_lt _ _ Hge).
  unfold bind at 1. unfold setBalance at 1.
  unfold bind at 1. rewrite currentUserId_identity.
  cbn [cache storage requests balance reserved totalIncome].
  change (identity _) with (identity w).
  destruct (identity w) as [uid |] eqn:Hid.
  - eexists; eexists; split; [reflexivity |].
    cbn [cache requests].
    split; [reflexivity |].
    split; [unfold record; cbn [requests]; rewrite <- app_assoc; reflexivity |].
    split; [| split].
    + intros r [<- | [<- | []]] [Hm _].
      * discriminate Hm.
      * rewrite <- feeRate_literal. reflexivity.
    + intros uid' _. eexists. split; [right; left; reflexivity |].
      split; [split; reflexivity | reflexivity].
    + discriminate.
  - exists (mkWorld (mkCache (sub B a) (reserved (cache w)) (totalIncome (cache w)))
                    (storage w) (requests w)), [].
    split; [reflexivity |].
    split; [reflexivity |].
    split; [cbn; rewrite app_nil_r; reflexivity |].
    split; [intros r [] | split; [discriminate | reflexivity]].
Qed.

(** Withdrawing 20 from a balance of 100: the cache drops to 80, not to
    79, and the request that leaves carries the amount 20 and the fee 1. *)
Lemma withdraw_deducts_amount_not_fee_witness :
  exists w' r,
    Wallet.withdraw (sampleHost unreachable) (JNumber (ofZ 20)) signedIn
    = (Returns (Some (mkWithdrawResult (ofZ 80) (ofZ 3))), w')
    /\ cache w' = mkCache (ofZ 80) (ofZ 5) (ofZ 3)
    /\ In r (requests w')
    /\ isWithdrawRequest (sampleHost unreachable) r
    /\ payloadField "amount" r = JNumber (ofZ 20)
    /\ payloadField "fee" r = JNumber (S754_finite false 4503599627370496 (-52))
    /\ S754_finite false 4503599627370496 (-52) = ofZ 1.
Proof.
  destruct (withdraw_deducts_amount_not_fee
              (sampleHost unreachable) signedIn (JNumber (ofZ 20))
              ltac:(vm_compute; reflexivity) ltac:(vm_compute; reflexivity))
    as (w' & sent & Hrun & Hcache & Hreq & Hfee & Hsent & _).
  destruct (Hsent "u1" ltac:(vm_compute; reflexivity)) as (r & Hin & Hw & Hamt).
  exists w', r.
  split; [exact Hrun |].
  split; [rewrite Hcache; reflexivity |].
  split; [rewrite Hreq; apply in_or_app; right; exact Hin |].
  split; [exact Hw |].
  split; [exact Hamt |].
  split; [| vm_compute; reflexivity].
  rewrite (Hfee r Hin Hw). vm_compute. reflexivity.
Defined.

(** C2.  For every amount whose [Number(amount)] is non-positive,
    non-finite, or strictly greater than the cached balance, [withdraw]
    returns [null] and leaves the world as it was: same cache, no remote
    request. *)
Theorem withdraw_rejects (host : Host) (w : World) (amount : JsValue) :
  let a := Js.ToNumber host amount in
  le a zero = true \/ isFinite a = false \/ gt a (balance (cache w)) = true ->
  Wallet.withdraw host amount w = (Returns None, w).
Proof.
  intros a H. unfold Wallet.withdraw. fold a.
  rewrite guard_positiveFinite.
  destruct (positiveFinite a) eqn:Hpos; [| reflexivity].
  destruct H as [H | [H | H]].
  - rewrite not_positiveFinite in Hpos by (left; exact H). discriminate.
  - rewrite not_positiveFinite in Hpos by (right; exact H). discriminate.
  - cbn [negb]. unfold bind, getCache. unfold gt in H. unfold lt.
    rewrite H. reflexivity.
Qed.

Lemma withdraw_rejects_witness :
  Wallet.withdraw (sampleHost unreachable) (JNumber (ofZ 200)) signedIn
  = (Returns None, signedIn).
Proof.
  apply (withdraw_rejects (sampleHost unreachable) signedIn (JNumber (ofZ 200))).
  right; right. vm_compute. reflexivity.
Defined.

(** ** Deposits *)

(** C5.  [recordDeposit] with a non-positive or non-finite amount does
    nothing.  With a positive finite amount it returns with the cached
    balance at [balance + amount], and the whole run is the same
    whatever the remote side answers to the write that follows. *)
Theorem recordDeposit_credits (host : Host) (w : World) (amount currency : JsValue) :
  let a := Js.ToNumber host amount in
  (le a zero = true \/ isFinite a = false ->
   Wallet.recordDeposit host amount currency w = (Returns tt, w))
  /\ (positiveFinite a = true ->
      outcome (Wallet.recordDeposit host amount currency) w = Returns tt
      /\ cache (after (Wallet.recordDeposit host amount currency) w)
         = mkCache (add (balance (cache w)) a)
                   (reserved (cache w)) (totalIncome (cache w))
      /\ forall remote : Request -> FetchOutcome,
           Wallet.recordDeposit (withRespond host remote) amount currency w
           = Wallet.recordDeposit host amount currency w).
Proof.
  intros a. split.
  - intros H. unfold Wallet.recordDeposit. fold a.
    rewrite guard_positiveFinite, (not_positiveFinite a H). reflexivity.
  - intros Hpos. split; [| split].
    + unfold outcome, Wallet.recordDeposit. fold a.
      rewrite guard_positiveFinite, Hpos. cbn [negb].
      unfold bind, getCache, setBalance. rewrite currentUserId_identity.
      change (identity _) with (identity w).
      destruct (identity w); reflexivity.
    + unfold after, Wallet.recordDeposit. fold a.
      rewrite guard_positiveFinite, Hpos. cbn [negb].
      unfold bind, getCache, setBalance. rewrite currentUserId_identity.
      change (identity _) with (identity w).
      destruct (identity w); reflexivity.
    + intros remote. reflexivity.
Qed.

Lemma recordDeposit_credits_witness :
  cache (after (Wallet.recordDeposit (sampleHost unreachable)
                                     (JNumber (ofZ 20)) JUndefined) signedIn)
  = mkCache (ofZ 120) (ofZ 5) (ofZ 3)
  /\ Wallet.recordDeposit (sampleHost unreachable) (JNumber zero) JUndefined signedIn
     = (Returns tt, signedIn).
Proof.
  destruct (recordDeposit_credits (sampleHost unreachable) signedIn
                                  (JNumber (ofZ 20)) JUndefined) as [_ H].
  destruct (H ltac:(vm_compute; reflexivity)) as (_ & Hc & _).
  split.
  - rewrite Hc. vm_compute. reflexivity.
  - destruct (recordDeposit_credits (sampleHost unreachable) signedIn
                                    (JNumber zero) JUndefined) as [H0 _].
    apply H0. left. vm_compute. reflexivity.
Defined.

(** ** What the local updates leave alone *)

(** C10.  Frame conditions on the cache: [withdraw] and [recordDeposit]
    never change [reserved] or [totalIncome]; [addIncome] never changes
    [balance] or [reserved]. *)
Theorem local_updates_frame (host : Host) (w : World) (v currency : JsValue) :
  (reserved (cache (after (Wallet.withdraw host v) w)) = reserved (cache w)
   /\ totalIncome (cache (after (Wallet.withdraw host v) w)) = totalIncome (cache w))
  /\ (reserved (cache (after (Wallet.recordDeposit host v currency) w))
      = reserved (cache w)
      /\ totalIncome (cache (after (Wallet.recordDeposit host v currency) w))
         = totalIncome (cache w))
  /\ (balance (cache (after (Wallet.addIncome host v) w)) = balance (cache w)
      /\ reserved (cache (after (Wallet.addIncome host v) w)) = reserved (cache w)).
Proof.
  unfold after. repeat split.
  - unfold Wallet.withdraw.
    destruct (negb _ || negb _ || le _ _); [reflexivity |].
    unfold bind, getCache, setBalance.
    destruct (lt _ _); [reflexivity |].
    rewrite currentUserId_identity.
    destruct (identity _); reflexivity.
  - unfold Wallet.withdraw.
    destruct (negb _ || negb _ || le _ _); [reflexivity |].
    unfold bind, getCache, setBalance.
    destruct (lt _ _); [reflexivity |].
    rewrite currentUserId_identity.
    destruct (identity _); reflexivity.
  - unfold Wallet.recordDeposit.
    destruct (negb _ || negb _ || le _ _); [reflexivity |].
    unfold bind, getCache, setBalance.
    rewrite currentUserId_identity.
    destruct (identity _); reflexivity.
  - unfold Wallet.recordDeposit.
    destruct (negb _ || negb _ || le _ _); [reflexivity |].
    unfold bind, getCache, setBalance.
    rewrite currentUserId_identity.
    destruct (identity _); reflexivity.
  - unfold Wallet.addIncome, bind, getCache, setTotalIncome, tryCatch, setItem.
    cbn [storage]. destruct (ls_writable (storage w)); reflexivity.
  - unfold Wallet.addIncome, bind, getCache, setTotalIncome, tryCatch, setItem.
    cbn [storage]. destruct (ls_writable (storage w)); reflexivity.
Qed.

(** ** Refreshing the cache *)

Lemma refreshWallet_returns (host : Host) (w : World) :
  exists w',
    Wallet.refreshWallet host w = (Returns tt, w')
    /\ totalIncome (cache w') = totalIncome (cache w)
    /\ storage w' = storage w.
Proof.
  unfold Wallet.refreshWallet.
  unfold bind at 1. rewrite currentUserId_identity.
  destruct (identity w) as [uid |]; [| exists w; repeat split].
  unfold tryCatch, bind, fetch.
  destruct (respond host _) as [| res];
    [eexists; split; [reflexivity | split; reflexivity] |].
  destruct (res_ok res);
    [| eexists; split; [reflexivity | split; reflexivity]].
  cbn [negb]. unfold json.
  destruct (res_json res) as [rows |];
    [| eexists; split; [reflexivity | split; reflexivity]].
  destruct rows as [| | b | n | s | [| row rest] | o];
    try (eexists; split; [reflexivity | split; reflexivity]).
  unfold Wallet.prop.
  destruct row as [| | b | n | s | l | o];
    cbn -[Js.parseFloat];
    repeat match goal with
           | |- context [isNaN ?x] => destruct (isNaN x); cbn -[Js.parseFloat]
           end;
    eexists; (split; [reflexivity | split; reflexivity]).
Qed.

Lemma refreshWallet_anonymous (host : Host) (w : World) :
  identity w = None -> Wallet.refreshWallet host w = (Returns tt, w).
Proof.
  intros Hid. unfold Wallet.refreshWallet, bind.
  rewrite currentUserId_identity, Hid. reflexivity.
Qed.

Lemma refreshWallet_failed_read (host : Host) (w : World) (uid : string) :
  identity w = Some uid ->
  readFails (respond host (Wallet.refreshRequest host uid)) = true ->
  Wallet.refreshWallet host w
  = (Returns tt, record (Wallet.refreshRequest host uid) w).
Proof.
  intros Hid Hfail. unfold Wallet.refreshWallet.
  unfold bind at 1. rewrite currentUserId_identity, Hid.
  unfold tryCatch, bind, fetch. unfold readFails in Hfail.
  destruct (respond host _) as [| res]; [reflexivity |].
  destruct (res_ok res); [| reflexivity].
  cbn [negb orb] in *. unfold json.
  destruct (res_json res); [discriminate Hfail | reflexivity].
Qed.







Lemma getWalletAsync_returns (host : Host) (w : World) :
  exists w',
    Wallet.getWalletAsync host w = (Returns (cache w'), w')
    /\ Wallet.refreshWallet host w = (Returns tt, w')
    /\ storage w' = storage w.
Proof.
  destruct (refreshWallet_returns host w) as (w' & Hrun & _ & Hst).
  exists w'. split; [| split; assumption].
  unfold Wallet.getWalletAsync. rewrite (bind_run _ _ _ _ _ Hrun).
  unfold Wallet.getWalletSync, bind, getCache, ret.
  destruct (cache w'); reflexivity.
Qed.

(** ** The referral tree *)

Lemma string_append_assoc (a b c : string) :
  (a +:+ b) +:+ c = a +:+ (b +:+ c).
Proof.
  induction a as [| x a IH]; [reflexivity |].
  change (String x ((a +:+ b) +:+ c) = String x (a +:+ b +:+ c)).
  rewrite IH. reflexivity.
Qed.

Lemma mapRows_rows (rows : list JsValue) (w : World) :
  Forall (fun r => isRow r = true) rows ->
  Wallet.mapRows rows w = (Returns (map memberOfRow rows), w).
Proof.
  induction 1 as [| r rows Hr _ IH]; [reflexivity |].
  cbn [Wallet.mapRows map]. unfold bind, Wallet.prop, memberOfRow, propOr.
  destruct r; try discriminate Hr; cbn [Js.getProp lift ret];
    unfold bind in IH; rewrite IH; reflexivity.
Qed.

Lemma mapRows_Returns (rows : list JsValue) (w w' : World)
      (ms : list Member) :
  Wallet.mapRows rows w = (Returns ms, w') ->
  ms = map memberOfRow rows /\ w' = w.
Proof.
  revert ms w w'. induction rows as [| r rows IH]; intros ms w w' H.
  - injection H as <- <-. split; reflexivity.
  - cbn [Wallet.mapRows] in H.
    apply bind_Returns in H. destruct H as (i & w1 & Hi & H).
    apply bind_Returns in H. destruct H as (d & w2 & Hd & H).
    apply bind_Returns in H. destruct H as (ms' & w3 & Hms & H).
    apply ret_Returns in H. destruct H as [<- <-].
    destruct (IH ms' _ _ Hms) as [-> ->].
    unfold Wallet.prop in Hi, Hd.
    destruct (Js.getProp r "descendant_id") as [e | i'] eqn:Ei;
      [discriminate Hi |].
    destruct (Js.getProp r "depth") as [e | d'] eqn:Ed;
      [discriminate Hd |].
    cbn [lift] in Hi, Hd.
    apply ret_Returns in Hi. destruct Hi as [<- <-].
    apply ret_Returns in Hd. destruct Hd as [<- <-].
    cbn [map]. unfold memberOfRow at 2. unfold propOr. rewrite Ei, Ed.
    split; reflexivity.
Qed.

Lemma mapRows_outcome (rows : list JsValue) (w1 w2 : World) :
  outcome (Wallet.mapRows rows) w1 = outcome (Wallet.mapRows rows) w2
  /\ after (Wallet.mapRows rows) w1 = w1.
Proof.
  unfold outcome, after. revert w1 w2.
  induction rows as [| r rows IH]; intros w1 w2; [split; reflexivity |].
  cbn [Wallet.mapRows]. unfold bind, Wallet.prop.
  destruct (Js.getProp r "descendant_id") as [e | i]; [split; reflexivity |].
  destruct (Js.getProp r "depth") as [e | d]; [split; reflexivity |].
  cbn [lift ret].
  destruct (IH w1 w2) as [Ho Ha]. destruct (IH w2 w1) as [_ Ha2].
  destruct (Wallet.mapRows rows w1) as [[ms1 | e1] w1'],
           (Wallet.mapRows rows w2) as [[ms2 | e2] w2'];
    cbn [fst snd] in *; try discriminate Ho; subst;
    injection Ho as ->; split; reflexivity.
Qed.

Lemma getTeamSummary_anonymous (host : Host) (w : World) :
  identity w = None ->
  Wallet.getTeamSummary host w = (Returns (mkTeamSummary []), w).
Proof.
  intros Hid. unfold Wallet.getTeamSummary, bind.
  rewrite currentUserId_identity, Hid. reflexivity.
Qed.

Lemma getTeamSummary_signedIn (host : Host) (w : World) (uid : string) :
  identity w = Some uid ->
  Wallet.getTeamSummary host w
  = match respond host (Wallet.teamRequest host uid) with
    | Failed => (Throws NetworkFailure, record (Wallet.teamRequest host uid) w)
    | Answered res =>
        if res_ok res
        then match res_json res with
             | Some rows =>
                 bind (Wallet.mapRows (if Js.isArray rows then Js.elements rows else []))
                      (fun ms => ret (mkTeamSummary ms))
                      (record (Wallet.teamRequest host uid) w)
             | None => (Throws SyntaxError, record (Wallet.teamRequest host uid) w)
             end
        else (Returns (mkTeamSummary []), record (Wallet.teamRequest host uid) w)
    end.
Proof.
  intros Hid. unfold Wallet.getTeamSummary.
  unfold bind at 1. rewrite currentUserId_identity, Hid.
  unfold bind at 1. unfold fetch.
  destruct (respond host _) as [| res]; [reflexivity |].
  destruct (res_ok res); [| reflexivity].
  cbn [negb]. unfold bind at 1. unfold json.
  destruct (res_json res); reflexivity.
Qed.

Lemma getTeamSummary_failed (host : Host) (w : World) (uid : string) :
  identity w = Some uid ->
  respond host (Wallet.teamRequest host uid) = Failed ->
  Wallet.getTeamSummary host w
  = (Throws NetworkFailure, record (Wallet.teamRequest host uid) w).
Proof.
  intros Hid Hres. unfold Wallet.getTeamSummary.
  unfold bind at 1. rewrite currentUserId_identity, Hid.
  unfold bind, fetch. rewrite Hres. reflexivity.
Qed.

Lemma getTeamSummary_refused (host : Host) (w : World) (uid : string)
      (res : Response) :
  identity w = Some uid ->
  respond host (Wallet.teamRequest host uid) = Answered res ->
  res_ok res = false ->
  Wallet.getTeamSummary host w
  = (Returns (mkTeamSummary []), record (Wallet.teamRequest host uid) w).
Proof.
  intros Hid Hres Hok. unfold Wallet.getTeamSummary.
  unfold bind at 1. rewrite currentUserId_identity, Hid.
  unfold bind, fetch. rewrite Hres, Hok. reflexivity.
Qed.

Lemma getTeamSummary_rows (host : Host) (w : World) (uid : string)
      (res : Response) (rows : list JsValue) :
  identity w = Some uid ->
  respond host (Wallet.teamRequest host uid) = Answered res ->
  res_ok res = true ->
  res_json res = Some (JArray rows) ->
  Forall (fun r => isRow r = true) rows ->
  Wallet.getTeamSummary host w
  = (Returns (mkTeamSummary (map memberOfRow rows)),
     record (Wallet.teamRequest host uid) w).
Proof.
  intros Hid Hres Hok Hjson Hrows. unfold Wallet.getTeamSummary.
  unfold bind at 1. rewrite currentUserId_identity, Hid.
  unfold bind, fetch. rewrite Hres, Hok. cbn [negb].
  unfold json. rewrite Hjson. cbn [ret Js.isArray Js.elements].
  rewrite (mapRows_rows rows _ Hrows). reflexivity.
Qed.

(** Whatever it returns is the answer of the remote side, row by row,
    and the one request it issued is the depth-bounded query. *)
Lemma getTeamSummary_Returns (host : Host) (w w' : World) (uid : string)
      (t : TeamSummary) :
  identity w = Some uid ->
  Wallet.getTeamSummary host w = (Returns t, w') ->
  members t = map memberOfRow
                  (answeredRows (respond host (Wallet.teamRequest host uid)))
  /\ w' = record (Wallet.teamRequest host uid) w.
Proof.
  intros Hid H. unfold Wallet.getTeamSummary in H.
  unfold bind at 1 in H. rewrite currentUserId_identity, Hid in H.
  unfold bind at 1 in H. unfold fetch at 1 in H. unfold answeredRows.
  destruct (respond host _) as [| res]; [discriminate H |].
  destruct (res_ok res); cbn [negb] in H.
  - apply bind_Returns in H. destruct H as (rows & w1 & Hj & H).
    unfold json in Hj. destruct (res_json res) as [v |]; [| discriminate Hj].
    apply ret_Returns in Hj. destruct Hj as [<- <-].
    apply bind_Returns in H. destruct H as (ms & w2 & Hms & H).
    apply ret_Returns in H. destruct H as [<- <-].
    apply mapRows_Returns in Hms. destruct Hms as [-> ->].
    destruct v; split; reflexivity.
  - apply ret_Returns in H. destruct H as [<- <-]. split; reflexivity.
Qed.

Lemma getTeamSummary_outcome (host : Host) (w1 w2 : World) :
  identity w1 = identity w2 ->
  outcome (Wallet.getTeamSummary host) w1 = outcome (Wallet.getTeamSummary host) w2.
Proof.
  intros Hid. unfold outcome.
  destruct (identity w2) as [uid |] eqn:Hid2.
  - rewrite (getTeamSummary_signedIn host w1 uid Hid),
            (getTeamSummary_signedIn host w2 uid Hid2).
    destruct (respond host _) as [| res]; [reflexivity |].
    destruct (res_ok res); [| reflexivity].
    destruct (res_json res) as [rows |]; [| reflexivity].
    unfold bind.
    pose proof (mapRows_outcome (if Js.isArray rows then Js.elements rows else [])
                  (record (Wallet.teamRequest host uid) w1)
                  (record (Wallet.teamRequest host uid) w2)) as [Ho _].
    unfold outcome in Ho.
    destruct (Wallet.mapRows _ (record _ w1)) as [[ms1 | e1] w1'],
             (Wallet.mapRows _ (record _ w2)) as [[ms2 | e2] w2'];
      cbn [fst] in *; try discriminate Ho; injection Ho as ->; reflexivity.
  - rewrite (getTeamSummary_anonymous host w1 Hid),
            (getTeamSummary_anonymous host w2 Hid2).
    reflexivity.
Qed.

(** C9, as amended.  With no identity [getTeamSummary] returns an empty
    member list and issues no request.  Otherwise it issues the one
    query whose filter asks for [depth < 4] and returns the rows of the
    answer as they are, one member per row: the members have depth below
    4 whenever the rows of the answer do. *)
Theorem getTeamSummary_depth_from_remote (host : Host) (w : World) :
  (identity w = None ->
   Wallet.getTeamSummary host w = (Returns (mkTeamSummary []), w))
  /\ (forall uid,
         identity w = Some uid ->
         (exists q, req_url (Wallet.teamRequest host uid) = q +:+ "&depth=lt.4")
         /\ (forall res rows,
                respond host (Wallet.teamRequest host uid) = Answered res ->
                res_ok res = true ->
                res_json res = Some (JArray rows) ->
                Forall (fun r => isRow r = true) rows ->
                Wallet.getTeamSummary host w
                = (Returns (mkTeamSummary (map memberOfRow rows)),
                   record (Wallet.teamRequest host uid) w))
         /\ (forall t w',
                Wallet.getTeamSummary host w = (Returns t, w') ->
                requests w' = (requests w ++ [Wallet.teamRequest host uid])%list
                /\ (Forall (fun r => depthBelow4 host (propOr r "depth") = true)
                           (answeredRows (respond host (Wallet.teamRequest host uid))) ->
                    Forall (fun m => depthBelow4 host (member_depth m) = true)
                           (members t)))).
Proof.
  split; [apply getTeamSummary_anonymous |].
  intros uid Hid. split; [| split].
  - eexists. unfold Wallet.teamRequest. cbn [req_url].
    rewrite <- !string_append_assoc. reflexivity.
  - intros res rows. apply getTeamSummary_rows. exact Hid.
  - intros t w' H.
    destruct (getTeamSummary_Returns host w w' uid t Hid H) as [Hm ->].
    split; [reflexivity |].
    rewrite Hm. intros Hall. apply List.Forall_map. exact Hall.
Qed.

Lemma getTeamSummary_depth_from_remote_witness :
  exists t w',
    Wallet.getTeamSummary vipHost signedIn = (Returns t, w')
    /\ Forall (fun m => depthBelow4 vipHost (member_depth m) = true) (members t).
Proof.
  destruct (getTeamSummary_depth_from_remote vipHost signedIn) as [_ H].
  destruct (H "u1" ltac:(vm_compute; reflexivity)) as (_ & Hrun & Hdepth).
  eexists. eexists. split.
  - apply (Hrun (mkResponse true
                   (Some (JArray [JObject [ ("current_level", JString "V3");
                                            ("is_activated", JBool true);
                                            ("usdt_balance", JString "100");
                                            ("descendant_id", JString "d1");
                                            ("depth", JNumber (ofZ 1)) ]]))
                   (Some ""))).
    + reflexivity.
    + reflexivity.
    + reflexivity.
    + repeat constructor.
  - cbn [members map]. repeat constructor.
Defined.

(** C9 as stated fails: a remote side that answers with an edge of depth
    5 gets it returned among the members. *)
Lemma getTeamSummary_returns_deep_edge :
  identity signedIn = Some "u1"
  /\ outcome (Wallet.getTeamSummary deepHost) signedIn
     = Returns (mkTeamSummary [mkMember (JString "d9") (JNumber (ofZ 5))])
  /\ depthBelow4 deepHost (JNumber (ofZ 5)) = false
  /\ ge (Js.ToNumber deepHost (JNumber (ofZ 5))) (ofZ 4) = true.
Proof. vm_compute. repeat split. Qed.

(** ** Reads that fail *)

Lemma listPayoutAddresses_anonymous (host : Host) (w : World) :
  identity w = None -> Wallet.listPayoutAddresses host w = (Returns [], w).
Proof.
  intros Hid. unfold Wallet.listPayoutAddresses, bind.
  rewrite currentUserId_identity, Hid. reflexivity.
Qed.

Lemma listPayoutAddresses_failed (host : Host) (w : World) (uid : string) :
  identity w = Some uid ->
  respond host (Wallet.payoutAddressesRequest host uid) = Failed ->
  Wallet.listPayoutAddresses host w
  = (Throws NetworkFailure, record (Wallet.payoutAddressesRequest host uid) w).
Proof.
  intros Hid Hres. unfold Wallet.listPayoutAddresses.
  unfold bind at 1. rewrite currentUserId_identity, Hid.
  unfold bind, fetch. rewrite Hres. reflexivity.
Qed.

Lemma listPayoutAddresses_refused (host : Host) (w : World) (uid : string)
      (res : Response) :
  identity w = Some uid ->
  respond host (Wallet.payoutAddressesRequest host uid) = Answered res ->
  res_ok res = false ->
  Wallet.listPayoutAddresses host w
  = (Returns [], record (Wallet.payoutAddressesRequest host uid) w).
Proof.
  intros Hid Hres Hok. unfold Wallet.listPayoutAddresses.
  unfold bind at 1. rewrite currentUserId_identity, Hid.
  unfold bind, fetch. rewrite Hres, Hok. reflexivity.
Qed.

Lemma getVipInfo_failed (host : Host) (w : World) (uid : string) :
  identity w = Some uid ->
  respond host (Wallet.userStateRequest host uid) = Failed ->
  Wallet.getVipInfo host w
  = (Throws NetworkFailure, record (Wallet.userStateRequest host uid) w).
Proof.
  intros Hid Hres. unfold Wallet.getVipInfo.
  unfold bind at 1. rewrite currentUserId_identity, Hid.
  unfold bind, fetch. rewrite Hres. reflexivity.
Qed.

(** A refused membership lookup counts as an empty answer: the level is
    V0, the flags are off, and the call fails only if the team read does. *)
Lemma getVipInfo_refused (host : Host) (w : World) (uid : string) (res : Response) :
  identity w = Some uid ->
  respond host (Wallet.userStateRequest host uid) = Answered res ->
  res_ok res = false ->
  match outcome (Wallet.getTeamSummary host) w with
  | Returns team =>
      exists bal,
        outcome (Wallet.getVipInfo host) w
        = Returns (mkVipInfo (JString "V0") (Some "V1") false false false bal
                             (List.length (List.filter (Wallet.countsAsEffective host)
                                                       (members team)))
                             Wallet.rules)
  | Throws e => outcome (Wallet.getVipInfo host) w = Throws e
  end.
Proof.
  intros Hid Hres Hok.
  set (w1 := record (Wallet.userStateRequest host uid) w).
  destruct (getWalletAsync_returns host w1) as (w2 & Hwallet & _ & Hst).
  assert (Hid2 : identity w2 = identity w)
    by (apply identity_storage; rewrite Hst; reflexivity).
  rewrite <- (getTeamSummary_outcome host w2 w Hid2).
  assert (Hfetch : fetch host (Wallet.userStateRequest host uid) w = (Returns res, w1))
    by (unfold fetch; rewrite Hres; reflexivity).
  unfold outcome at 2 3, Wallet.getVipInfo.
  rewrite !(bind_run _ _ _ _ _ (currentUserId_identity w)), Hid.
  rewrite !(bind_run _ _ _ _ _ Hfetch), Hok.
  rewrite !(bind_run (ret (JArray [])) _ w1 w1 (JArray []) eq_refl).
  rewrite !(bind_run _ _ _ _ _ Hwallet).
  unfold outcome.
  destruct (Wallet.getTeamSummary host w2) as [[team | e] w3] eqn:Hteam; cbn [fst].
  - exists (balance (cache w2)).
    rewrite (bind_run _ _ _ _ _ Hteam). reflexivity.
  - rewrite (bind_throw _ _ _ _ _ Hteam). reflexivity.
Qed.

(** C4, as amended.  A read of [refreshWallet] that fails in any way
    leaves the cache and surfaces nothing.  A non-success answer makes
    [getTeamSummary] return no members and [listPayoutAddresses] return no
    rows, and makes the membership lookup of [getVipInfo] count as an
    empty answer (level V0, flags off), the call then failing only if its
    team read fails.  A transport failure on the read of
    [getTeamSummary], [listPayoutAddresses] or [getVipInfo] rejects the
    call. *)
Theorem failing_reads_degrade_or_reject (host : Host) (w : World) (uid : string) :
  identity w = Some uid ->
  (readFails (respond host (Wallet.refreshRequest host uid)) = true ->
   outcome (Wallet.refreshWallet host) w = Returns tt
   /\ cache (after (Wallet.refreshWallet host) w) = cache w)
  /\ (forall res,
         respond host (Wallet.teamRequest host uid) = Answered res ->
         res_ok res = false ->
         outcome (Wallet.getTeamSummary host) w = Returns (mkTeamSummary []))
  /\ (forall res,
         respond host (Wallet.payoutAddressesRequest host uid) = Answered res ->
         res_ok res = false ->
         outcome (Wallet.listPayoutAddresses host) w = Returns [])
  /\ (forall res,
         respond host (Wallet.userStateRequest host uid) = Answered res ->
         res_ok res = false ->
         match outcome (Wallet.getTeamSummary host) w with
         | Returns team =>
             exists bal,
               outcome (Wallet.getVipInfo host) w
               = Returns (mkVipInfo (JString "V0") (Some "V1") false false false bal
                                    (List.length
                                       (List.filter (Wallet.countsAsEffective host)
                                                    (members team)))
                                    Wallet.rules)
         | Throws e => outcome (Wallet.getVipInfo host) w = Throws e
         end)
  /\ (respond host (Wallet.teamRequest host uid) = Failed ->
      outcome (Wallet.getTeamSummary host) w = Throws NetworkFailure)
  /\ (respond host (Wallet.payoutAddressesRequest host uid) = Failed ->
      outcome (Wallet.listPayoutAddresses host) w = Throws NetworkFailure)
  /\ (respond host (Wallet.userStateRequest host uid) = Failed ->
      outcome (Wallet.getVipInfo host) w = Throws NetworkFailure).
Proof.
  intros Hid. unfold outcome, after.
  split; [| split; [| split; [| split; [| split; [| split]]]]].
  - intros Hfail. rewrite (refreshWallet_failed_read host w uid Hid Hfail).
    split; reflexivity.
  - intros res Hres Hok.
    rewrite (getTeamSummary_refused host w uid res Hid Hres Hok). reflexivity.
  - intros res Hres Hok.
    rewrite (listPayoutAddresses_refused host w uid res Hid Hres Hok). reflexivity.
  - intros res Hres Hok. exact (getVipInfo_refused host w uid res Hid Hres Hok).
  - intros Hres. rewrite (getTeamSummary_failed host w uid Hid Hres). reflexivity.
  - intros Hres. rewrite (listPayoutAddresses_failed host w uid Hid Hres). reflexivity.
  - intros Hres. rewrite (getVipInfo_failed host w uid Hid Hres). reflexivity.
Qed.

Lemma failing_reads_degrade_or_reject_witness :
  (outcome (Wallet.getTeamSummary refusingHost) signedIn = Returns (mkTeamSummary [])
   /\ outcome (Wallet.listPayoutAddresses refusingHost) signedIn = Returns [])
  /\ outcome (Wallet.getTeamSummary (sampleHost unreachable)) signedIn
     = Throws NetworkFailure.
Proof.
  destruct (failing_reads_degrade_or_reject refusingHost signedIn "u1"
              ltac:(vm_compute; reflexivity))
    as (_ & Hteam & Hpay & _).
  destruct (failing_reads_degrade_or_reject (sampleHost unreachable) signedIn "u1"
              ltac:(vm_compute; reflexivity))
    as (_ & _ & _ & _ & Hfail & _).
  split; [split |].
  - apply (Hteam (mkResponse false None (Some ""))); reflexivity.
  - apply (Hpay (mkResponse false None (Some ""))); reflexivity.
  - apply Hfail. reflexivity.
Defined.

(** C4 as stated fails: with the remote side unreachable, the three
    reads outside [refreshWallet] reject. *)
Lemma reads_reject_when_unreachable :
  identity signedIn = Some "u1"
  /\ outcome (Wallet.getTeamSummary (sampleHost unreachable)) signedIn
     = Throws NetworkFailure
  /\ outcome (Wallet.listPayoutAddresses (sampleHost unreachable)) signedIn
     = Throws NetworkFailure
  /\ outcome (Wallet.getVipInfo (sampleHost unreachable)) signedIn
     = Throws NetworkFailure.
Proof. vm_compute. repeat split. Qed.

(** ** Tier order *)

Lemma nextOf_successor (level : JsValue) :
  Wallet.nextOf level = successorInSequence level.
Proof.
  destruct level as [| | b | n | s | l | o]; try reflexivity.
  unfold Wallet.nextOf, Js.indexOf, order, successorInSequence.
  cbn [Js.indexOfFrom].
  rewrite !(String.eqb_sym _ s).
  repeat (destruct (String.eqb s _); [reflexivity |]).
  reflexivity.
Qed.

Lemma prop_truthy (v : JsValue) (k : string) (w : World) :
  Js.ToBoolean v = true \/ v = JObject [] ->
  Wallet.prop v k w = (Returns (propOr v k), w).
Proof.
  unfold Wallet.prop, propOr.
  intros [H | ->]; [| reflexivity].
  destruct v; try discriminate H; reflexivity.
Qed.

(** The state row [getVipInfo] works from, given the rows of the answer. *)
Lemma getVipInfo_answered (host : Host) (w : World) (uid : string)
      (res : Response) (body : JsValue) (team : TeamSummary) :
  identity w = Some uid ->
  respond host (Wallet.userStateRequest host uid) = Answered res ->
  res_json res = Some body ->
  outcome (Wallet.getTeamSummary host) w = Returns team ->
  exists v, outcome (Wallet.getVipInfo host) w = Returns v.
Proof.
  intros Hid Hres Hjson Hteam.
  set (w1 := record (Wallet.userStateRequest host uid) w).
  destruct (getWalletAsync_returns host w1) as (w2 & Hwallet & _ & Hst).
  assert (Hid2 : identity w2 = identity w)
    by (apply identity_storage; rewrite Hst; reflexivity).
  rewrite <- (getTeamSummary_outcome host w2 w Hid2) in Hteam.
  assert (Hfetch : fetch host (Wallet.userStateRequest host uid) w = (Returns res, w1))
    by (unfold fetch; rewrite Hres; reflexivity).
  set (stateRows := if res_ok res then body else JArray []).
  assert (Hrows : (if res_ok res then json res else ret (JArray [])) w1
                  = (Returns stateRows, w1))
    by (unfold stateRows, json; rewrite Hjson; destruct (res_ok res); reflexivity).
  set (state := if Js.isArray stateRows && Js.ToBoolean (Js.first stateRows)
                then Js.first stateRows else JObject []).
  assert (Hstate : Js.ToBoolean state = true \/ state = JObject []).
  { unfold state. destruct (Js.isArray stateRows); [| right; reflexivity].
    destruct (Js.ToBoolean (Js.first stateRows)) eqn:E;
      [left; exact E | right; reflexivity]. }
  unfold outcome in *. unfold Wallet.getVipInfo.
  rewrite (bind_run _ _ _ _ _ (currentUserId_identity w)), Hid.
  rewrite (bind_run _ _ _ _ _ Hfetch).
  rewrite (bind_run _ _ _ _ _ Hrows). fold state.
  rewrite (bind_run _ _ _ _ _ Hwallet).
  destruct (Wallet.getTeamSummary host w2) as [[team' | e] w3] eqn:Hrun;
    cbn [fst] in Hteam; [| discriminate Hteam].
  rewrite (bind_run _ _ _ _ _ Hrun).
  rewrite !(bind_run _ _ _ _ _ (prop_truthy state _ w3 Hstate)).
  eexists. reflexivity.
Qed.

(** C7.  For a signed-in user, whenever [getVipInfo] computes a snapshot
    its [nextLevel] is the successor of its [currentLevel] in the
    sequence V0, ..., V6: the tier that follows for V0..V5, [null] for
    V6, and [null] for a level outside the sequence.  It does compute
    one whenever the membership read is answered with a JSON body and
    the team read returns. *)
Theorem getVipInfo_nextLevel (host : Host) (w : World) (uid : string) :
  identity w = Some uid ->
  (forall v w',
      Wallet.getVipInfo host w = (Returns v, w') ->
      nextLevel v = successorInSequence (currentLevel v))
  /\ (forall res body team,
         respond host (Wallet.userStateRequest host uid) = Answered res ->
         res_json res = Some body ->
         outcome (Wallet.getTeamSummary host) w = Returns team ->
         exists v, outcome (Wallet.getVipInfo host) w = Returns v).
Proof.
  intros Hid. split.
  - intros v w' H. unfold Wallet.getVipInfo in H.
    apply bind_Returns in H. destruct H as (u & w0 & H0 & H).
    rewrite currentUserId_identity, Hid in H0. injection H0 as <- <-.
    invert_run H.
    apply ret_Returns in H. destruct H as [<- _].
    cbn [nextLevel currentLevel]. apply nextOf_successor.
  - intros res body team. apply getVipInfo_answered. exact Hid.
Qed.

Lemma getVipInfo_nextLevel_witness :
  exists v,
    outcome (Wallet.getVipInfo vipHost) signedIn = Returns v
    /\ currentLevel v = JString "V3"
    /\ nextLevel v = Some "V4".
Proof.
  destruct (getVipInfo_nextLevel vipHost signedIn "u1"
              ltac:(vm_compute; reflexivity)) as [Hnext Hruns].
  destruct (Wallet.getVipInfo vipHost signedIn) as [[v | e] w'] eqn:Hrun.
  - exists v. unfold outcome. rewrite Hrun. split; [reflexivity |].
    assert (Hcur : currentLevel v = JString "V3").
    { assert (Hv : outcome (Wallet.getVipInfo vipHost) signedIn = Returns v)
        by (unfold outcome; rewrite Hrun; reflexivity).
      vm_compute in Hv. injection Hv as <-. reflexivity. }
    split; [exact Hcur |].
    rewrite (Hnext v w' eq_refl), Hcur. reflexivity.
  - exfalso.
    assert (Hv : outcome (Wallet.getVipInfo vipHost) signedIn = Throws e)
      by (unfold outcome; rewrite Hrun; reflexivity).
    vm_compute in Hv. discriminate Hv.
Defined.

(** ** Calls without an identity *)

Lemma getVipInfo_anonymous (host : Host) (w : World) :
  identity w = None ->
  Wallet.getVipInfo host w
  = (Returns (mkVipInfo (JString "V0") None false false false zero 0 []), w).
Proof.
  intros Hid. unfold Wallet.getVipInfo, bind.
  rewrite currentUserId_identity, Hid. reflexivity.
Qed.

(** C8.  With no identity, [getVipInfo] returns exactly
    [{currentLevel:'V0', nextLevel:null, isActivated:false,
      isFunded:false, isLocked:false, balance:0, effectiveUsers:0,
      rulesByLevel:{}}] and the world is untouched: no remote request. *)
Theorem getVipInfo_absent_identity_snapshot (host : Host) (w : World) :
  identity w = None ->
  Wallet.getVipInfo host w
  = (Returns (mkVipInfo (JString "V0") None false false false zero 0 []), w).
Proof. exact (getVipInfo_anonymous host w). Qed.

Lemma getVipInfo_absent_identity_snapshot_witness :
  Wallet.getVipInfo (sampleHost unreachable) anonymous
  = (Returns (mkVipInfo (JString "V0") None false false false zero 0 []), anonymous).
Proof.
  apply (getVipInfo_absent_identity_snapshot (sampleHost unreachable) anonymous).
  vm_compute. reflexivity.
Defined.

Lemma addPayoutAddress_anonymous (host : Host) (w : World) (c n a : JsValue) :
  identity w = None ->
  Wallet.addPayoutAddress host c n a w = (Throws (Error "Not logged in"), w).
Proof.
  intros Hid. unfold Wallet.addPayoutAddress, bind.
  rewrite currentUserId_identity, Hid. reflexivity.
Qed.

Lemma requestWithdraw_anonymous (host : Host) (w : World) (opts : JsValue) :
  identity w = None ->
  Wallet.requestWithdraw host opts w = (Throws (Error "Not logged in"), w).
Proof.
  intros Hid. unfold Wallet.requestWithdraw, bind.
  rewrite currentUserId_identity, Hid. reflexivity.
Qed.

Lemma submitDepositTx_anonymous (host : Host) (w : World) (t n c : JsValue) :
  identity w = None ->
  Wallet.submitDepositTx host t n c w = (Returns tt, w).
Proof.
  intros Hid. unfold Wallet.submitDepositTx, bind.
  rewrite currentUserId_identity, Hid. reflexivity.
Qed.

Lemma getUser_world (w : World) : after Wallet.getUser w = w.
Proof.
  unfold after, Wallet.getUser, tryCatch, bind, getItem, ret.
  destruct (ls_readable (storage w)) eqn:E; rewrite ?E; reflexivity.
Qed.

Lemma recordDeposit_anonymous (host : Host) (w : World) (amount currency : JsValue) :
  identity w = None ->
  let a := Js.ToNumber host amount in
  after (Wallet.recordDeposit host amount currency) w
  = if positiveFinite a
    then mkWorld (mkCache (add (balance (cache w)) a)
                          (reserved (cache w)) (totalIncome (cache w)))
                 (storage w) (requests w)
    else w.
Proof.
  intros Hid a. unfold after, Wallet.recordDeposit. fold a.
  rewrite guard_positiveFinite.
  destruct (positiveFinite a); [| reflexivity]. cbn [negb].
  unfold bind, getCache, setBalance. rewrite currentUserId_identity.
  change (identity _) with (identity w). rewrite Hid. reflexivity.
Qed.

Lemma withdraw_anonymous (host : Host) (w : World) (amount : JsValue) :
  identity w = None ->
  let a := Js.ToNumber host amount in
  after (Wallet.withdraw host amount) w
  = if positiveFinite a && negb (lt (balance (cache w)) a)
    then mkWorld (mkCache (sub (balance (cache w)) a)
                          (reserved (cache w)) (totalIncome (cache w)))
                 (storage w) (requests w)
    else w.
Proof.
  intros Hid a. unfold after, Wallet.withdraw. fold a.
  rewrite guard_positiveFinite.
  destruct (positiveFinite a); [| reflexivity]. cbn [negb andb].
  unfold bind at 1. unfold getCache at 1.
  destruct (lt (balance (cache w)) a); [reflexivity |]. cbn [negb].
  unfold bind, getCache, setBalance. rewrite currentUserId_identity.
  change (identity _) with (identity w). rewrite Hid. reflexivity.
Qed.

Lemma addIncome_requests (host : Host) (w : World) (n : JsValue) :
  requests (after (Wallet.addIncome host n) w) = requests w.
Proof.
  unfold after, Wallet.addIncome, bind, getCache, setTotalIncome, tryCatch, setItem.
  cbn [storage]. destruct (ls_writable (storage w)); reflexivity.
Qed.

(** C3, as amended.  With no identity, no entry of the public interface
    issues a remote request, and every entry other than [withdraw],
    [recordDeposit] and [addIncome] leaves the world as it was.  Those
    three update the cache all the same: [withdraw] takes an accepted
    amount off the balance, [recordDeposit] adds a positive finite
    amount to it, [addIncome] adds to [totalIncome]. *)
Theorem anonymous_calls_stay_local (host : Host) (w : World) :
  identity w = None ->
  (forall c : Call,
      requests (after (perform host c) w) = requests w
      /\ (isLocalUpdate c = false -> after (perform host c) w = w))
  /\ (forall amount,
         let a := Js.ToNumber host amount in
         positiveFinite a = true ->
         ge (balance (cache w)) a = true ->
         balance (cache (after (perform host (CallWithdraw amount)) w))
         = sub (balance (cache w)) a)
  /\ (forall amount currency,
         let a := Js.ToNumber host amount in
         positiveFinite a = true ->
         balance (cache (after (perform host (CallRecordDeposit amount currency)) w))
         = add (balance (cache w)) a)
  /\ (forall n,
         let a := Js.ToNumber host n in
         totalIncome (cache (after (perform host (CallAddIncome n)) w))
         = add (totalIncome (cache w)) (if positiveFinite a then a else one)).
Proof.
  intros Hid. split; [| split; [| split]].
  - intros c. destruct c; cbn [perform isLocalUpdate];
      rewrite ?after_discard.
    + split; [reflexivity | intros _; reflexivity].
    + destruct (getWalletAsync_returns host w) as (w' & Hrun & Hrefresh & _).
      rewrite (refreshWallet_anonymous host w Hid) in Hrefresh.
      injection Hrefresh as <-.
      unfold after. rewrite Hrun. split; [reflexivity | intros _; reflexivity].
    + unfold after. rewrite (getVipInfo_anonymous host w Hid).
      split; [reflexivity | intros _; reflexivity].
    + unfold after. rewrite (getTeamSummary_anonymous host w Hid).
      split; [reflexivity | intros _; reflexivity].
    + unfold after. rewrite (listPayoutAddresses_anonymous host w Hid).
      split; [reflexivity | intros _; reflexivity].
    + unfold after. rewrite (addPayoutAddress_anonymous host w _ _ _ Hid).
      split; [reflexivity | intros _; reflexivity].
    + unfold after. rewrite (requestWithdraw_anonymous host w _ Hid).
      split; [reflexivity | intros _; reflexivity].
    + rewrite (recordDeposit_anonymous host w _ _ Hid).
      split; [| discriminate].
      destruct (positiveFinite _); reflexivity.
    + unfold after. rewrite (submitDepositTx_anonymous host w _ _ _ Hid).
      split; [reflexivity | intros _; reflexivity].
    + rewrite (withdraw_anonymous host w _ Hid).
      split; [| discriminate].
      destruct (positiveFinite _ && _); reflexivity.
    + split; [apply addIncome_requests | discriminate].
    + rewrite getUser_world. split; [reflexivity | intros _; reflexivity].
  - intros amount a Hpos Hge. cbn [perform]. rewrite after_discard.
    rewrite (withdraw_anonymous host w amount Hid). fold a.
    rewrite Hpos, (ge_not_lt _ _ Hge). reflexivity.
  - intros amount currency a Hpos. cbn [perform].
    rewrite (recordDeposit_anonymous host w amount currency Hid). fold a.
    rewrite Hpos. reflexivity.
  - intros n a. cbn [perform].
    unfold after, Wallet.addIncome. fold a. rewrite guard_positiveFinite.
    unfold bind, getCache, setTotalIncome, tryCatch, setItem.
    cbn [storage].
    destruct (positiveFinite a), (ls_writable (storage w)); reflexivity.
Qed.

Lemma anonymous_calls_stay_local_witness :
  requests (after (perform (sampleHost unreachable) CallGetVipInfo) anonymous) = []
  /\ balance (cache (after (perform (sampleHost unreachable)
                                    (CallWithdraw (JNumber (ofZ 20)))) anonymous))
     = ofZ 80.
Proof.
  destruct (anonymous_calls_stay_local (sampleHost unreachable) anonymous
              ltac:(vm_compute; reflexivity))
    as (Hall & Hw & _).
  split.
  - destruct (Hall CallGetVipInfo) as [Hreq _]. rewrite Hreq. reflexivity.
  - rewrite (Hw (JNumber (ofZ 20)) ltac:(vm_compute; reflexivity)
                ltac:(vm_compute; reflexivity)).
    vm_compute. reflexivity.
Defined.

(** C3 as stated fails: with nobody signed in, [withdraw(20)] and
    [recordDeposit(20)] change the cache. *)
Lemma anonymous_withdraw_and_deposit_change_cache :
  identity anonymous = None
  /\ cache (after (perform (sampleHost unreachable)
                           (CallWithdraw (JNumber (ofZ 20)))) anonymous)
     <> cache anonymous
  /\ cache (after (perform (sampleHost unreachable)
                           (CallRecordDeposit (JNumber (ofZ 20)) JUndefined)) anonymous)
     <> cache anonymous.
Proof.
  split; [vm_compute; reflexivity |].
  split; vm_compute; intros H; discriminate H.
Qed.

(** ** The accepted race *)

(** A balance of 100, [withdraw(20)] leaves 80; a refresh whose read still
    says ["100"] puts 100 back. *)
Example withdraw_then_stale_refresh :
  balance (cache (after (Wallet.withdraw vipHost (JNumber (ofZ 20))) signedIn))
  = ofZ 80
  /\ balance (cache (after (Wallet.refreshWallet vipHost)
                           (after (Wallet.withdraw vipHost (JNumber (ofZ 20))) signedIn)))
     = ofZ 100.
Proof. vm_compute. split; reflexivity. Qed.

(** * Further properties *)

(** ** What a run keeps *)

Section Keeps.

Context (P : World -> Prop).

Lemma keeps_ret {A : Type} (a : A) : keeps P (ret a).
Proof. intros w H. exact H. Qed.

Lemma keeps_throw {A : Type} (e : JsError) : keeps P (@throw A e).
Proof. intros w H. exact H. Qed.

Lemma keeps_lift {A : Type} (r : JsError + A) : keeps P (lift r).
Proof. destruct r; [apply keeps_throw | apply keeps_ret]. Qed.

Lemma keeps_bind {A B : Type} (m : M A) (k : A -> M B) :
  keeps P m -> (forall a, keeps P (k a)) -> keeps P (bind m k).
Proof.
  intros Hm Hk w H. specialize (Hm w H). unfold after, bind in *.
  destruct (m w) as [[a | e] w1]; cbn [snd] in *.
  - exact (Hk a w1 Hm).
  - exact Hm.
Qed.

Lemma keeps_tryCatch {A : Type} (m : M A) (h : JsError -> M A) :
  keeps P m -> (forall e, keeps P (h e)) -> keeps P (tryCatch m h).
Proof.
  intros Hm Hh w H. specialize (Hm w H). unfold after, tryCatch in *.
  destruct (m w) as [[a | e] w1]; cbn [snd] in *.
  - exact Hm.
  - exact (Hh e w1 Hm).
Qed.

Lemma keeps_getCache : keeps P getCache.
Proof. intros w H. exact H. Qed.

Lemma keeps_getItem (k : string) : keeps P (getItem k).
Proof.
  intros w H. unfold after, getItem.
  destruct (ls_readable (storage w)); exact H.
Qed.

Lemma keeps_currentUserId : keeps P currentUserId.
Proof. intros w H. unfold after. rewrite currentUserId_identity. exact H. Qed.

Lemma keeps_json (res : Response) : keeps P (json res).
Proof. unfold json. destruct (res_json res); [apply keeps_ret | apply keeps_throw]. Qed.

Lemma keeps_prop (v : JsValue) (k : string) : keeps P (Wallet.prop v k).
Proof. apply keeps_lift. Qed.

Lemma keeps_failWithBody {A : Type} (res : Response) (dflt : string) :
  keeps P (@Wallet.failWithBody A res dflt).
Proof. unfold Wallet.failWithBody. destruct (orNull _); apply keeps_throw. Qed.

Lemma keeps_mapRows (rows : list JsValue) : keeps P (Wallet.mapRows rows).
Proof.
  induction rows as [| r rows IH]; [apply keeps_ret |].
  cbn [Wallet.mapRows].
  apply keeps_bind; [apply keeps_prop | intros i].
  apply keeps_bind; [apply keeps_prop | intros d].
  apply keeps_bind; [exact IH | intros ms]. apply keeps_ret.
Qed.

Lemma keeps_getUser : keeps P Wallet.getUser.
Proof.
  unfold Wallet.getUser. apply keeps_tryCatch; [| intros e; apply keeps_ret].
  apply keeps_bind; [apply keeps_getItem | intros uid].
  apply keeps_bind; [apply keeps_getItem | intros phone]. apply keeps_ret.
Qed.

Lemma keeps_getWalletSync : keeps P Wallet.getWalletSync.
Proof.
  unfold Wallet.getWalletSync.
  apply keeps_bind; [apply keeps_getCache | intros c; apply keeps_ret].
Qed.

Section Requests.

Context (host : Host) (HR : ignoresRequests P).

Lemma keeps_fetch (r : Request) : keeps P (fetch host r).
Proof.
  intros w H. unfold after, fetch.
  destruct (respond host r); cbn [snd]; apply HR; exact H.
Qed.

Lemma keeps_fetchDetached (r : Request) : keeps P (fetchDetached r).
Proof. intros w H. apply HR. exact H. Qed.

Lemma keeps_getTeamSummary : keeps P (Wallet.getTeamSummary host).
Proof.
  unfold Wallet.getTeamSummary.
  apply keeps_bind; [apply keeps_currentUserId | intros [uid |]];
    [| apply keeps_ret].
  apply keeps_bind; [apply keeps_fetch | intros res].
  destruct (negb (res_ok res)); [apply keeps_ret |].
  apply keeps_bind; [apply keeps_json | intros rows].
  apply keeps_bind; [apply keeps_mapRows | intros ms]. apply keeps_ret.
Qed.

Lemma keeps_listPayoutAddresses : keeps P (Wallet.listPayoutAddresses host).
Proof.
  unfold Wallet.listPayoutAddresses.
  apply keeps_bind; [apply keeps_currentUserId | intros [uid |]];
    [| apply keeps_ret].
  apply keeps_bind; [apply keeps_fetch | intros res].
  destruct (negb (res_ok res)); [apply keeps_ret |].
  apply keeps_bind; [apply keeps_json | intros rows]. apply keeps_ret.
Qed.

Lemma keeps_addPayoutAddress (c n a : JsValue) :
  keeps P (Wallet.addPayoutAddress host c n a).
Proof.
  unfold Wallet.addPayoutAddress.
  apply keeps_bind; [apply keeps_currentUserId | intros [uid |]];
    [| apply keeps_throw].
  apply keeps_bind; [apply keeps_fetch | intros res].
  destruct (negb (res_ok res)); [apply keeps_failWithBody |].
  apply keeps_bind; [apply keeps_json | intros data]. apply keeps_ret.
Qed.

Lemma keeps_requestWithdraw (opts : JsValue) :
  keeps P (Wallet.requestWithdraw host opts).
Proof.
  unfold Wallet.requestWithdraw.
  apply keeps_bind; [apply keeps_currentUserId | intros [uid |]];
    [| apply keeps_throw].
  do 5 (apply keeps_bind; [apply keeps_prop | intros ?]).
  apply keeps_bind; [apply keeps_fetch | intros res].
  destruct (negb (res_ok res)); [apply keeps_failWithBody |].
  apply keeps_bind; [apply keeps_json | intros data]. apply keeps_ret.
Qed.

Lemma keeps_submitDepositTx (t n c : JsValue) :
  keeps P (Wallet.submitDepositTx host t n c).
Proof.
  unfold Wallet.submitDepositTx.
  apply keeps_bind; [apply keeps_currentUserId | intros [uid |]];
    [| apply keeps_ret].
  destruct (negb (Js.ToBoolean t)); [apply keeps_ret | apply keeps_fetchDetached].
Qed.

Lemma keeps_recordDeposit (HB : ignoresBalance P) (a c : JsValue) :
  keeps P (Wallet.recordDeposit host a c).
Proof.
  unfold Wallet.recordDeposit.
  destruct (negb _ || negb _ || le _ _); [apply keeps_ret |].
  apply keeps_bind; [apply keeps_getCache | intros c0].
  apply keeps_bind; [intros w H; apply HB; exact H | intros _].
  apply keeps_bind; [apply keeps_currentUserId | intros [uid |]];
    [| apply keeps_ret].
  apply keeps_bind; [apply keeps_getCache | intros c1].
  apply keeps_fetchDetached.
Qed.

Lemma keeps_withdraw (HB : ignoresBalance P) (a : JsValue) :
  keeps P (Wallet.withdraw host a).
Proof.
  unfold Wallet.withdraw.
  destruct (negb _ || negb _ || le _ _); [apply keeps_ret |].
  apply keeps_bind; [apply keeps_getCache | intros c0].
  destruct (lt _ _); [apply keeps_ret |].
  apply keeps_bind; [intros w H; apply HB; exact H | intros _].
  apply keeps_bind; [apply keeps_currentUserId | intros userId].
  apply keeps_bind; [| intros _].
  - destruct userId as [uid |]; [| apply keeps_ret].
    apply keeps_bind; [apply keeps_getCache | intros c1].
    apply keeps_bind; [apply keeps_fetchDetached | intros _].
    apply keeps_fetchDetached.
  - apply keeps_bind; [apply keeps_getCache | intros c2]. apply keeps_ret.
Qed.

Lemma keeps_refreshWallet (HB : ignoresBalance P) (HV : ignoresReserved P) :
  keeps P (Wallet.refreshWallet host).
Proof.
  unfold Wallet.refreshWallet.
  apply keeps_bind; [apply keeps_currentUserId | intros [uid |]];
    [| apply keeps_ret].
  apply keeps_tryCatch; [| intros e; apply keeps_ret].
  apply keeps_bind; [apply keeps_fetch | intros res].
  destruct (negb (res_ok res)); [apply keeps_ret |].
  apply keeps_bind; [apply keeps_json | intros rows].
  destruct (Js.isArray rows && _); [| apply keeps_ret].
  apply keeps_bind; [apply keeps_prop | intros b].
  apply keeps_bind; [apply keeps_prop | intros r].
  apply keeps_bind; [| intros _].
  - destruct (negb _); [intros w H; apply HB; exact H | apply keeps_ret].
  - destruct (negb _); [intros w H; apply HV; exact H | apply keeps_ret].
Qed.

Lemma keeps_getWalletAsync :
  keeps P (Wallet.refreshWallet host) -> keeps P (Wallet.getWalletAsync host).
Proof.
  intros Hrefresh. unfold Wallet.getWalletAsync.
  apply keeps_bind; [exact Hrefresh | intros _].
  apply keeps_getWalletSync.
Qed.

Lemma keeps_getVipInfo :
  keeps P (Wallet.refreshWallet host) -> keeps P (Wallet.getVipInfo host).
Proof.
  intros Hrefresh.
  unfold Wallet.getVipInfo.
  apply keeps_bind; [apply keeps_currentUserId | intros [uid |]];
    [| apply keeps_ret].
  apply keeps_bind; [apply keeps_fetch | intros res].
  apply keeps_bind;
    [destruct (res_ok res); [apply keeps_json | apply keeps_ret] | intros stateRows].
  apply keeps_bind; [apply keeps_getWalletAsync; assumption | intros balanceObj].
  apply keeps_bind; [apply keeps_getTeamSummary | intros team].
  do 4 (apply keeps_bind; [apply keeps_prop | intros ?]).
  apply keeps_ret.
Qed.

End Requests.

Lemma keeps_discard {A : Type} (m : M A) : keeps P m -> keeps P (discard m).
Proof. intros H. apply keeps_bind; [exact H | intros a; apply keeps_ret]. Qed.

End Keeps.

Lemma keeps_perform (P : World -> Prop) (host : Host) (c : Call) :
  ignoresRequests P ->
  (isRefreshing c = true \/ isBalanceUpdate c = true -> ignoresBalance P) ->
  (isRefreshing c = true -> ignoresReserved P) ->
  isAddIncome c = false ->
  keeps P (perform host c).
Proof.
  intros HR HB HV Hc.
  destruct c; cbn [perform]; try discriminate Hc;
    try apply keeps_discard.
  - apply keeps_getWalletSync.
  - apply keeps_getWalletAsync; auto. apply keeps_refreshWallet; auto.
  - apply keeps_getVipInfo; auto. apply keeps_refreshWallet; auto.
  - apply keeps_getTeamSummary; auto.
  - apply keeps_listPayoutAddresses; auto.
  - apply keeps_addPayoutAddress; auto.
  - apply keeps_requestWithdraw; auto.
  - apply keeps_recordDeposit; auto.
  - apply keeps_submitDepositTx; auto.
  - apply keeps_withdraw; auto.
  - apply keeps_getUser.
Qed.

(** ** Who changes what *)

(** X1.  Each field of the cache has its writers: [totalIncome] is changed by
    [addIncome] alone, [reserved] by the two calls that refresh
    ([getWalletAsync], [getVipInfo]) alone, [balance] by those two and by
    [withdraw] and [recordDeposit] alone.  Every other call returns with
    the field as it found it, whatever the remote side answers. *)
Theorem cache_fields_have_their_writers (host : Host) (w : World) (c : Call) :
  (isAddIncome c = false ->
   totalIncome (cache (after (perform host c) w)) = totalIncome (cache w))
  /\ (isRefreshing c = false ->
      reserved (cache (after (perform host c) w)) = reserved (cache w))
  /\ (isRefreshing c = false -> isBalanceUpdate c = false ->
      balance (cache (after (perform host c) w)) = balance (cache w)).
Proof.
  split; [| split].
  - intros Hc.
    apply (keeps_perform (fun w' => totalIncome (cache w') = totalIncome (cache w))
                         host c); try reflexivity; try assumption.
    + intros w0 r H. exact H.
    + intros _ w0 b H. exact H.
    + intros _ w0 r H. exact H.
  - intros Hc.
    destruct (isAddIncome c) eqn:Ha.
    + destruct c; try discriminate Ha. cbn [perform].
      unfold after, Wallet.addIncome, bind, getCache, setTotalIncome, tryCatch, setItem.
      cbn [storage]. destruct (ls_writable (storage w)); reflexivity.
    + apply (keeps_perform (fun w' => reserved (cache w') = reserved (cache w))
                           host c); try reflexivity; try assumption.
      * intros w0 r H. exact H.
      * intros _ w0 b H. exact H.
      * intros Hr. rewrite Hr in Hc. discriminate Hc.
  - intros Hc Hb.
    destruct (isAddIncome c) eqn:Ha.
    + destruct c; try discriminate Ha. cbn [perform].
      unfold after, Wallet.addIncome, bind, getCache, setTotalIncome, tryCatch, setItem.
      cbn [storage]. destruct (ls_writable (storage w)); reflexivity.
    + apply (keeps_perform (fun w' => balance (cache w') = balance (cache w))
                           host c); try reflexivity; try assumption.
      * intros w0 r H. exact H.
      * intros [Hr | Hr]; [rewrite Hr in Hc; discriminate Hc
                          | rewrite Hr in Hb; discriminate Hb].
      * intros Hr. rewrite Hr in Hc. discriminate Hc.
Qed.

Lemma cache_fields_have_their_writers_witness :
  totalIncome (cache (after (perform vipHost (CallWithdraw (JNumber (ofZ 20)))) signedIn))
  = ofZ 3
  /\ reserved (cache (after (perform vipHost (CallRecordDeposit (JNumber (ofZ 20)) JNull))
                            signedIn))
     = ofZ 5
  /\ balance (cache (after (perform vipHost (CallRequestWithdraw (JObject [])))
                           signedIn))
     = ofZ 100.
Proof.
  split; [| split].
  - destruct (cache_fields_have_their_writers
                vipHost signedIn (CallWithdraw (JNumber (ofZ 20)))) as (H & _ & _).
    rewrite (H eq_refl). reflexivity.
  - destruct (cache_fields_have_their_writers
                vipHost signedIn (CallRecordDeposit (JNumber (ofZ 20)) JNull))
      as (_ & H & _).
    rewrite (H eq_refl). reflexivity.
  - destruct (cache_fields_have_their_writers
                vipHost signedIn (CallRequestWithdraw (JObject []))) as (_ & _ & H).
    rewrite (H eq_refl eq_refl). reflexivity.
Defined.

(** X2.  [localStorage] is written by [addIncome] alone, and [addIncome]
    writes under [aiIncome] alone: every other call leaves the storage as
    it found it, and [addIncome] leaves every other key and the
    availability of the storage. *)
Theorem storage_written_by_addIncome_alone (host : Host) (w : World) :
  (forall c, isAddIncome c = false ->
             storage (after (perform host c) w) = storage w)
  /\ (forall n k,
         k <> "aiIncome" ->
         ls_items (storage (after (Wallet.addIncome host n) w)) !! k
         = ls_items (storage w) !! k)
  /\ (forall n,
         ls_readable (storage (after (Wallet.addIncome host n) w))
         = ls_readable (storage w)
         /\ ls_writable (storage (after (Wallet.addIncome host n) w))
            = ls_writable (storage w)).
Proof.
  split; [| split].
  - intros c Hc.
    apply (keeps_perform (fun w' => storage w' = storage w) host c);
      try reflexivity; try assumption.
    + intros w0 r H. exact H.
    + intros _ w0 b H. exact H.
    + intros _ w0 r H. exact H.
  - intros n k Hk.
    unfold after, Wallet.addIncome, bind, getCache, setTotalIncome, tryCatch, setItem.
    cbn [storage]. destruct (ls_writable (storage w)); cbn [snd storage ls_items].
    + rewrite lookup_insert_ne by congruence. reflexivity.
    + reflexivity.
  - intros n.
    unfold after, Wallet.addIncome, bind, getCache, setTotalIncome, tryCatch, setItem.
    cbn [storage]. unfold ret. destruct (ls_writable (storage w)) eqn:E;
      cbn [snd storage ls_readable ls_writable]; rewrite ?E; split; reflexivity.
Qed.

Lemma storage_written_by_addIncome_alone_witness :
  storage (after (perform vipHost CallGetVipInfo) signedIn) = storage signedIn
  /\ ls_items (storage (after (Wallet.addIncome vipHost (JNumber (ofZ 2))) signedIn))
       !! "currentUserId"
     = Some "u1".
Proof.
  destruct (storage_written_by_addIncome_alone vipHost signedIn) as (H1 & H2 & _).
  split.
  - apply (H1 CallGetVipInfo). reflexivity.
  - rewrite (H2 (JNumber (ofZ 2)) "currentUserId" ltac:(discriminate)).
    vm_compute. reflexivity.
Defined.

(** ** How many requests a call issues *)

Lemma sends_ret {A : Type} (a : A) : sendsAtMost 0 (ret a).
Proof. intros w. exists []. split; [symmetry; apply app_nil_r | reflexivity]. Qed.

Lemma sends_throw {A : Type} (e : JsError) : sendsAtMost 0 (@throw A e).
Proof. intros w. exists []. split; [symmetry; apply app_nil_r | reflexivity]. Qed.

Lemma sends_le {A : Type} (n n' : nat) (m : M A) :
  (n <= n')%nat -> sendsAtMost n m -> sendsAtMost n' m.
Proof.
  intros Hle H w. destruct (H w) as (sent & Hs & Hl).
  exists sent. split; [exact Hs | lia].
Qed.

Lemma sends_bind {A B : Type} (n k : nat) (m : M A) (f : A -> M B) :
  sendsAtMost n m -> (forall a, sendsAtMost k (f a)) ->
  sendsAtMost (n + k) (bind m f).
Proof.
  intros Hm Hf w. destruct (Hm w) as (s1 & Hs1 & Hl1).
  unfold after, bind in *. destruct (m w) as [[a | e] w1]; cbn [snd] in *.
  - destruct (Hf a w1) as (s2 & Hs2 & Hl2). unfold after in Hs2.
    exists (s1 ++ s2)%list. split.
    + rewrite Hs2, Hs1, app_assoc. reflexivity.
    + rewrite length_app. lia.
  - exists s1. split; [exact Hs1 | lia].
Qed.

Lemma sends_tryCatch {A : Type} (n k : nat) (m : M A) (h : JsError -> M A) :
  sendsAtMost n m -> (forall e, sendsAtMost k (h e)) ->
  sendsAtMost (n + k) (tryCatch m h).
Proof.
  intros Hm Hh w. destruct (Hm w) as (s1 & Hs1 & Hl1).
  unfold after, tryCatch in *. destruct (m w) as [[a | e] w1]; cbn [snd] in *.
  - exists s1. split; [exact Hs1 | lia].
  - destruct (Hh e w1) as (s2 & Hs2 & Hl2). unfold after in Hs2.
    exists (s1 ++ s2)%list. split.
    + rewrite Hs2, Hs1, app_assoc. reflexivity.
    + rewrite length_app. lia.
Qed.

(** A run that leaves the log alone sends nothing. *)
Lemma sends_nothing {A : Type} (m : M A) :
  (forall w, requests (after m w) = requests w) -> sendsAtMost 0 m.
Proof.
  intros H w. exists []. split; [rewrite H; symmetry; apply app_nil_r | reflexivity].
Qed.

Lemma sends_local {A : Type} (m : M A) :
  (forall rq, keeps (fun w => requests w = rq) m) -> sendsAtMost 0 m.
Proof.
  intros H. apply sends_nothing. intros w. exact (H (requests w) w eq_refl).
Qed.

Lemma sends_fetch (host : Host) (r : Request) : sendsAtMost 1 (fetch host r).
Proof.
  intros w. exists [r]. unfold after, fetch.
  destruct (respond host r); split; reflexivity.
Qed.

Lemma sends_fetchDetached (r : Request) : sendsAtMost 1 (fetchDetached r).
Proof. intros w. exists [r]. split; reflexivity. Qed.

Lemma sends_currentUserId : sendsAtMost 0 currentUserId.
Proof. apply sends_local. intros rq. apply keeps_currentUserId. Qed.

Lemma sends_getCache : sendsAtMost 0 getCache.
Proof. apply sends_local. intros rq. apply keeps_getCache. Qed.

Lemma sends_json (res : Response) : sendsAtMost 0 (json res).
Proof. apply sends_local. intros rq. apply keeps_json. Qed.

Lemma sends_prop (v : JsValue) (k : string) : sendsAtMost 0 (Wallet.prop v k).
Proof. apply sends_local. intros rq. apply keeps_prop. Qed.

Lemma sends_mapRows (rows : list JsValue) : sendsAtMost 0 (Wallet.mapRows rows).
Proof. apply sends_local. intros rq. apply keeps_mapRows. Qed.

Lemma sends_setBalance (b : number) : sendsAtMost 0 (setBalance b).
Proof. apply sends_nothing. reflexivity. Qed.

Lemma sends_setReserved (b : number) : sendsAtMost 0 (setReserved b).
Proof. apply sends_nothing. reflexivity. Qed.

Lemma sends_refreshWallet (host : Host) : sendsAtMost 1 (Wallet.refreshWallet host).
Proof.
  unfold Wallet.refreshWallet.
  apply (sends_bind 0 1); [apply sends_currentUserId | intros [uid |]];
    [| apply (sends_le 0); [lia | apply sends_ret]].
  apply (sends_tryCatch 1 0); [| intros e; apply sends_ret].
  apply (sends_bind 1 0); [apply sends_fetch | intros res].
  destruct (negb (res_ok res)); [apply sends_ret |].
  apply (sends_bind 0 0); [apply sends_json | intros rows].
  destruct (Js.isArray rows && _); [| apply sends_ret].
  apply (sends_bind 0 0); [apply sends_prop | intros b].
  apply (sends_bind 0 0); [apply sends_prop | intros r].
  apply (sends_bind 0 0); [| intros _].
  - destruct (negb _); [apply sends_setBalance | apply sends_ret].
  - destruct (negb _); [apply sends_setReserved | apply sends_ret].
Qed.

Lemma sends_getWalletAsync (host : Host) : sendsAtMost 1 (Wallet.getWalletAsync host).
Proof.
  unfold Wallet.getWalletAsync.
  apply (sends_bind 1 0); [apply sends_refreshWallet | intros _].
  apply sends_local. intros rq. apply keeps_getWalletSync.
Qed.

Lemma sends_getTeamSummary (host : Host) : sendsAtMost 1 (Wallet.getTeamSummary host).
Proof.
  unfold Wallet.getTeamSummary.
  apply (sends_bind 0 1); [apply sends_currentUserId | intros [uid |]];
    [| apply (sends_le 0); [lia | apply sends_ret]].
  apply (sends_bind 1 0); [apply sends_fetch | intros res].
  destruct (negb (res_ok res)); [apply sends_ret |].
  apply (sends_bind 0 0); [apply sends_json | intros rows].
  apply (sends_bind 0 0); [apply sends_mapRows | intros ms]. apply sends_ret.
Qed.

Lemma sends_getVipInfo (host : Host) : sendsAtMost 3 (Wallet.getVipInfo host).
Proof.
  unfold Wallet.getVipInfo.
  apply (sends_bind 0 3); [apply sends_currentUserId | intros [uid |]];
    [| apply (sends_le 0); [lia | apply sends_ret]].
  apply (sends_bind 1 2); [apply sends_fetch | intros res].
  apply (sends_bind 0 2);
    [destruct (res_ok res); [apply sends_json | apply sends_ret] | intros stateRows].
  apply (sends_bind 1 1); [apply sends_getWalletAsync | intros balanceObj].
  apply (sends_bind 1 0); [apply sends_getTeamSummary | intros team].
  do 4 (apply (sends_bind 0 0); [apply sends_prop | intros ?]).
  apply sends_ret.
Qed.

Lemma sends_listPayoutAddresses (host : Host) :
  sendsAtMost 1 (Wallet.listPayoutAddresses host).
Proof.
  unfold Wallet.listPayoutAddresses.
  apply (sends_bind 0 1); [apply sends_currentUserId | intros [uid |]];
    [| apply (sends_le 0); [lia | apply sends_ret]].
  apply (sends_bind 1 0); [apply sends_fetch | intros res].
  destruct (negb (res_ok res)); [apply sends_ret |].
  apply (sends_bind 0 0); [apply sends_json | intros rows]. apply sends_ret.
Qed.

Lemma sends_failWithBody {A : Type} (res : Response) (dflt : string) :
  sendsAtMost 0 (@Wallet.failWithBody A res dflt).
Proof. unfold Wallet.failWithBody. destruct (orNull _); apply sends_throw. Qed.

Lemma sends_addPayoutAddress (host : Host) (c n a : JsValue) :
  sendsAtMost 1 (Wallet.addPayoutAddress host c n a).
Proof.
  unfold Wallet.addPayoutAddress.
  apply (sends_bind 0 1); [apply sends_currentUserId | intros [uid |]];
    [| apply (sends_le 0); [lia | apply sends_throw]].
  apply (sends_bind 1 0); [apply sends_fetch | intros res].
  destruct (negb (res_ok res)); [apply sends_failWithBody |].
  apply (sends_bind 0 0); [apply sends_json | intros data]. apply sends_ret.
Qed.

Lemma sends_requestWithdraw (host : Host) (opts : JsValue) :
  sendsAtMost 1 (Wallet.requestWithdraw host opts).
Proof.
  unfold Wallet.requestWithdraw.
  apply (sends_bind 0 1); [apply sends_currentUserId | intros [uid |]];
    [| apply (sends_le 0); [lia | apply sends_throw]].
  do 5 (apply (sends_bind 0 1); [apply sends_prop | intros ?]).
  apply (sends_bind 1 0); [apply sends_fetch | intros res].
  destruct (negb (res_ok res)); [apply sends_failWithBody |].
  apply (sends_bind 0 0); [apply sends_json | intros data]. apply sends_ret.
Qed.

Lemma sends_recordDeposit (host : Host) (a c : JsValue) :
  sendsAtMost 1 (Wallet.recordDeposit host a c).
Proof.
  unfold Wallet.recordDeposit.
  destruct (negb _ || negb _ || le _ _);
    [apply (sends_le 0); [lia | apply sends_ret] |].
  apply (sends_bind 0 1); [apply sends_getCache | intros c0].
  apply (sends_bind 0 1); [apply sends_setBalance | intros _].
  apply (sends_bind 0 1); [apply sends_currentUserId | intros [uid |]];
    [| apply (sends_le 0); [lia | apply sends_ret]].
  apply (sends_bind 0 1); [apply sends_getCache | intros c1].
  apply sends_fetchDetached.
Qed.

Lemma sends_submitDepositTx (host : Host) (t n c : JsValue) :
  sendsAtMost 1 (Wallet.submitDepositTx host t n c).
Proof.
  unfold Wallet.submitDepositTx.
  apply (sends_bind 0 1); [apply sends_currentUserId | intros [uid |]];
    [| apply (sends_le 0); [lia | apply sends_ret]].
  destruct (negb (Js.ToBoolean t));
    [apply (sends_le 0); [lia | apply sends_ret] | apply sends_fetchDetached].
Qed.

Lemma sends_withdraw (host : Host) (a : JsValue) :
  sendsAtMost 2 (Wallet.withdraw host a).
Proof.
  unfold Wallet.withdraw.
  destruct (negb _ || negb _ || le _ _);
    [apply (sends_le 0); [lia | apply sends_ret] |].
  apply (sends_bind 0 2); [apply sends_getCache | intros c0].
  destruct (lt _ _); [apply (sends_le 0); [lia | apply sends_ret] |].
  apply (sends_bind 0 2); [apply sends_setBalance | intros _].
  apply (sends_bind 0 2); [apply sends_currentUserId | intros userId].
  apply (sends_bind 2 0); [| intros _].
  - destruct userId as [uid |]; [| apply (sends_le 0); [lia | apply sends_ret]].
    apply (sends_bind 0 2); [apply sends_getCache | intros c1].
    apply (sends_bind 1 1); [apply sends_fetchDetached | intros _].
    apply sends_fetchDetached.
  - apply (sends_bind 0 0); [apply sends_getCache | intros c2]. apply sends_ret.
Qed.

Lemma sends_discard {A : Type} (n : nat) (m : M A) :
  sendsAtMost n m -> sendsAtMost n (discard m).
Proof.
  intros H. unfold discard.
  apply (sends_le (n + 0)); [lia |].
  apply sends_bind; [exact H | intros a; apply sends_ret].
Qed.

(** X3.  Nothing is ever retried and nothing is ever taken back: a call only
    adds to the requests issued so far, never more than its budget
    ([getVipInfo] three, [withdraw] two, the other remote-backed calls
    one, [getWallet], [addIncome] and [getUser] none), whatever the remote
    side answers. *)
Theorem calls_stay_within_their_request_budget (host : Host) (c : Call) (w : World) :
  exists sent,
    requests (after (perform host c) w) = (requests w ++ sent)%list
    /\ (List.length sent <= requestBudget c)%nat.
Proof.
  revert w. change (sendsAtMost (requestBudget c) (perform host c)).
  destruct c; cbn [perform requestBudget]; try apply sends_discard.
  - apply sends_local. intros rq. apply keeps_getWalletSync.
  - apply sends_getWalletAsync.
  - apply sends_getVipInfo.
  - apply sends_getTeamSummary.
  - apply sends_listPayoutAddresses.
  - apply sends_addPayoutAddress.
  - apply sends_requestWithdraw.
  - apply sends_recordDeposit.
  - apply sends_submitDepositTx.
  - apply sends_withdraw.
  - apply sends_nothing. intros w. apply addIncome_requests.
  - apply sends_local. intros rq. apply keeps_getUser.
Qed.

(** ** Rounding never invents a NaN or a sign *)

Lemma iter_pos_keeps {A : Type} (Q : A -> Prop) (f : A -> A) :
  (forall x, Q x -> Q (f x)) -> forall n x, Q x -> Q (SpecFloat.iter_pos f n x).
Proof.
  intros Hf. induction n as [n IH | n IH |]; intros x Hx; cbn [SpecFloat.iter_pos].
  - apply IH, IH, Hf, Hx.
  - apply IH, IH, Hx.
  - apply Hf, Hx.
Qed.

Lemma shr_1_nonneg (mrs : shr_record) :
  (0 <= shr_m mrs)%Z -> (0 <= shr_m (shr_1 mrs))%Z.
Proof.
  destruct mrs as [m r s]. cbn [shr_m]. intros H.
  destruct m as [| [p | p |] | p]; cbn; lia.
Qed.

Lemma shr_fexp_nonneg (m e : Z) (l : location) :
  (0 <= m)%Z -> (0 <= shr_m (fst (shr_fexp prec emax m e l)))%Z.
Proof.
  intros Hm. unfold shr_fexp, shr.
  assert (H0 : (0 <= shr_m (shr_record_of_loc m l))%Z)
    by (destruct l as [| []]; exact Hm).
  destruct (fexp prec emax (Zdigits2 m + e) - e)%Z as [| p | p]; cbn [fst];
    try exact H0.
  apply (iter_pos_keeps (fun mrs => (0 <= shr_m mrs)%Z)); [apply shr_1_nonneg | exact H0].
Qed.

Lemma round_nearest_even_nonneg (m : Z) (l : location) :
  (0 <= m)%Z -> (0 <= round_nearest_even m l)%Z.
Proof.
  intros H. unfold round_nearest_even.
  destruct l as [| []]; try destruct (Z.even m); lia.
Qed.

(** What rounding a non-negative mantissa gives: a zero, a finite number
    or an infinity, of the sign it was given. *)
Lemma binary_round_aux_shape (sx : bool) (mx ex : Z) (lx : location) :
  (0 <= mx)%Z ->
  let r := binary_round_aux prec emax sx mx ex lx in
  r = S754_zero sx \/ r = S754_infinity sx \/ exists m e, r = S754_finite sx m e.
Proof.
  intros Hm. unfold binary_round_aux.
  pose proof (shr_fexp_nonneg mx ex lx Hm) as H1.
  destruct (shr_fexp prec emax mx ex lx) as [mrs' e']. cbn [fst] in H1.
  pose proof (shr_fexp_nonneg _ e' loc_Exact
                (round_nearest_even_nonneg (shr_m mrs') (loc_of_shr_record mrs') H1))
    as H2.
  destruct (shr_fexp prec emax _ e' loc_Exact) as [mrs'' e'']. cbn [fst] in H2.
  cbn zeta. destruct (shr_m mrs'') as [| p | p].
  - left. reflexivity.
  - destruct (e'' <=? emax - prec)%Z; [right; right; eauto | right; left; reflexivity].
  - lia.
Qed.

Lemma binary_normalize_shape (z e : Z) :
  let r := binary_normalize prec emax z e false in
  r = S754_zero false
  \/ exists s, r = S754_infinity s \/ r = S754_zero s \/ exists m e', r = S754_finite s m e'.
Proof.
  unfold binary_normalize, binary_round. destruct z as [| p | p].
  - left. reflexivity.
  - right. exists false.
    destruct (shl_align p e _) as [mz ez].
    destruct (binary_round_aux_shape false (Zpos mz) ez loc_Exact ltac:(lia))
      as [H | [H | H]]; auto.
  - right. exists true.
    destruct (shl_align p e _) as [mz ez].
    destruct (binary_round_aux_shape true (Zpos mz) ez loc_Exact ltac:(lia))
      as [H | [H | H]]; auto.
Qed.

Lemma binary_normalize_not_nan (z e : Z) :
  isNaN (binary_normalize prec emax z e false) = false.
Proof.
  destruct (binary_normalize_shape z e) as [H | (s & [H | [H | (m & e' & H)]])];
    rewrite H; reflexivity.
Qed.

Lemma binary_normalize_nonneg (z e : Z) :
  (0 <= z)%Z -> le zero (binary_normalize prec emax z e false) = true.
Proof.
  intros Hz. unfold binary_normalize, binary_round. destruct z as [| p | p]; [reflexivity | | lia].
  destruct (shl_align p e _) as [mz ez].
  destruct (binary_round_aux_shape false (Zpos mz) ez loc_Exact ltac:(lia))
    as [H | [H | (m & e' & H)]]; rewrite H; reflexivity.
Qed.

Lemma add_not_nan (x y : number) :
  isNaN x = false -> isFinite y = true -> isNaN (add x y) = false.
Proof.
  destruct x as [sx | sx | | sx mx ex], y as [sy | sy | | sy my ey];
    cbn; try discriminate; intros _ _; try reflexivity.
  - destruct sx, sy; reflexivity.
  - apply binary_normalize_not_nan.
Qed.

Lemma sub_not_nan (x y : number) :
  isNaN x = false -> isFinite y = true -> isNaN (sub x y) = false.
Proof.
  destruct x as [sx | sx | | sx mx ex], y as [sy | sy | | sy my ey];
    cbn; try discriminate; intros _ _; try reflexivity.
  - destruct sx, sy; reflexivity.
  - apply binary_normalize_not_nan.
Qed.

Lemma positiveFinite_isFinite (a : number) :
  positiveFinite a = true -> isFinite a = true.
Proof. unfold positiveFinite. intros H. apply andb_true_iff in H. apply H. Qed.

(** ** Subtracting a smaller double *)

Lemma digits2_pos_size (p : positive) : digits2_pos p = Pos.size p.
Proof. induction p as [p IH | p IH |]; cbn; rewrite ?IH; reflexivity. Qed.

Lemma digits2_pos_bounds (p : positive) :
  (Zpos p < 2 ^ Zpos (digits2_pos p))%Z
  /\ (2 ^ Zpos (digits2_pos p) <= 2 * Zpos p)%Z.
Proof.
  rewrite digits2_pos_size. split.
  - pose proof (Pos.size_gt p) as H.
    apply Pos2Z.pos_lt_pos in H. rewrite Pos2Z.inj_pow in H. exact H.
  - pose proof (Pos.size_le p) as H.
    apply Pos2Z.pos_le_pos in H. rewrite Pos2Z.inj_pow in H.
    rewrite Pos2Z.inj_xO in H. exact H.
Qed.

(** The mantissa of a double is below [2^53]; above the smallest exponent
    it is at least [2^52]. *)
Lemma double_mantissa (s : bool) (m : positive) (e : Z) :
  isDouble (S754_finite s m e) = true ->
  (Zpos m < 2 ^ 53)%Z /\ ((-1074 < e)%Z -> (2 ^ 52 <= Zpos m)%Z) /\ (-1074 <= e)%Z.
Proof.
  unfold isDouble, valid_binary, bounded, canonical_mantissa, fexp, emin, prec, emax.
  intros H. apply andb_true_iff in H. destruct H as [H _].
  apply Z.eqb_eq in H.
  destruct (digits2_pos_bounds m) as [Hlt Hle].
  set (d := Zpos (digits2_pos m)) in *.
  assert (Hd : (d <= 53)%Z) by lia.
  split; [| split].
  - apply (Z.lt_le_trans _ _ _ Hlt). apply Z.pow_le_mono_r; lia.
  - intros He. assert (d = 53%Z) by lia. subst d.
    replace (Zpos (digits2_pos m)) with 53%Z in Hle by lia.
    change (2 ^ 53)%Z with (2 * 2 ^ 52)%Z in Hle. lia.
  - lia.
Qed.

Lemma iter_xO_pow (p d : positive) :
  Zpos (Pos.iter xO p d) = (Zpos p * 2 ^ Zpos d)%Z.
Proof.
  induction d as [| d IH] using Pos.peano_ind.
  - cbn. lia.
  - rewrite Pos.iter_succ, Pos2Z.inj_xO, IH, Pos2Z.inj_succ, Z.pow_succ_r by lia.
    lia.
Qed.

Lemma shl_align_fst (mx : positive) (ex ez : Z) :
  (ez <= ex)%Z ->
  Zpos (fst (shl_align mx ex ez)) = (Zpos mx * 2 ^ (ex - ez))%Z.
Proof.
  intros Hle. unfold shl_align.
  destruct (ez - ex)%Z as [| d | d] eqn:E; cbn [fst].
  - replace (ex - ez)%Z with 0%Z by lia. lia.
  - lia.
  - rewrite iter_xO_pow. replace (ex - ez)%Z with (Zpos d) by lia. reflexivity.
Qed.

Lemma sub_nonneg (B a : number) :
  isDouble B = true -> isDouble a = true ->
  positiveFinite a = true -> ge B a = true ->
  le zero (sub B a) = true.
Proof.
  intros HB Ha Hpos Hge.
  destruct a as [sa | sa | | sa ma ea]; try discriminate Hpos.
  destruct sa; [discriminate Hpos |].
  destruct B as [sB | sB | | sB mB eB]; try discriminate Hge.
  - destruct sB; [discriminate Hge | reflexivity].
  - destruct sB; [discriminate Hge |].
    unfold ge, SFleb in Hge. cbn [SFcompare] in Hge.
    unfold sub, SFsub. cbn [cond_Zopp].
    apply binary_normalize_nonneg.
    rewrite !shl_align_fst by lia.
    destruct (double_mantissa false ma ea Ha) as (Hma & _ & Hea).
    destruct (double_mantissa false mB eB HB) as (_ & HmB & _).
    destruct (Z.compare_spec ea eB) as [-> | Hlt | Hgt].
    + rewrite Z.min_id, Z.sub_diag. cbn [Z.pow].
      rewrite Pos.compare_cont_spec in Hge. cbn [Pos.switch_Eq] in Hge.
      assert (Zpos ma <= Zpos mB)%Z.
      { apply Pos2Z.pos_le_pos. unfold Pos.le.
        destruct (ma ?= mB)%positive; [discriminate | discriminate | discriminate Hge]. }
      lia.
    + rewrite Z.min_r by lia. rewrite Z.sub_diag. cbn [Z.pow].
      specialize (HmB ltac:(lia)).
      assert (H2 : (2 ^ 1 <= 2 ^ (eB - ea))%Z) by (apply Z.pow_le_mono_r; lia).
      change (2 ^ 1)%Z with 2%Z in H2.
      change (2 ^ 53)%Z with (2 ^ 52 * 2)%Z in Hma.
      assert (2 ^ 52 * 2 <= Zpos mB * 2 ^ (eB - ea))%Z
        by (apply Z.mul_le_mono_nonneg; lia).
      lia.
    + discriminate Hge.
Qed.

(** ** Withdrawals and deposits, seen from the remote side *)

Lemma SFcompare_None (x y : number) :
  SFcompare x y = None -> isNaN x = true \/ isNaN y = true.
Proof.
  destruct x as [sx | sx | | sx mx ex], y as [sy | sy | | sy my ey];
    cbn; try discriminate; auto.
Qed.

Lemma not_lt_ge (b a : number) :
  isNaN b = false -> isNaN a = false -> lt b a = false -> ge b a = true.
Proof.
  intros Hb Ha. unfold ge, lt, SFleb, SFltb. rewrite (SFcompare_swap b a).
  destruct (SFcompare b a) as [[] |] eqn:E; cbn; try congruence.
  destruct (SFcompare_None b a E); congruence.
Qed.

Lemma positiveFinite_not_nan (a : number) :
  positiveFinite a = true -> isNaN a = false.
Proof. destruct a as [[] | [] | | [] m e]; cbn; congruence. Qed.

Lemma withdraw_rejected (host : Host) (w : World) (amount : JsValue) :
  let a := Js.ToNumber host amount in
  positiveFinite a && negb (lt (balance (cache w)) a) = false ->
  Wallet.withdraw host amount w = (Returns None, w).
Proof.
  intros a H. unfold Wallet.withdraw. fold a.
  rewrite guard_positiveFinite.
  destruct (positiveFinite a); [| reflexivity]. cbn [negb andb] in *.
  unfold bind at 1. unfold getCache at 1.
  destruct (lt (balance (cache w)) a); [reflexivity | discriminate H].
Qed.

(** What an accepted [withdraw] does, request by request. *)
Lemma withdraw_accepted (host : Host) (w : World) (amount : JsValue) :
  let a := Js.ToNumber host amount in
  let B := balance (cache w) in
  positiveFinite a = true -> lt B a = false ->
  exists sent,
    Wallet.withdraw host amount w
    = (Returns (Some (mkWithdrawResult (sub B a) (totalIncome (cache w)))),
       mkWorld (mkCache (sub B a) (reserved (cache w)) (totalIncome (cache w)))
               (storage w) (requests w ++ sent))
    /\ match identity w with
       | None => sent = []
       | Some uid =>
           exists r1 r2,
             sent = [r1; r2]
             /\ r1 = mkRequest PATCH
                       (SB_url host +:+ "/rest/v1/wallet_balances?user_id=eq."
                        +:+ encodeURIComponent host uid)
                       (SB_headers host)
                       (Some (JObject [ ("usdt_balance", JNumber (sub B a));
                                        ("updated_at", JString (nowISO host)) ]))
             /\ isWithdrawRequest host r2
             /\ req_headers r2 = Wallet.preferRepresentation host
             /\ req_body r2
                = Some (JObject [ ("user_id", JString uid);
                                  ("currency", JString "usdt");
                                  ("network", JString "trc20");
                                  ("to_address", JString "");
                                  ("amount", JNumber a);
                                  ("fee", JNumber (mul a feeRate));
                                  ("address", JString "") ])
       end.
Proof.
  intros a B Hpos Hlt. unfold Wallet.withdraw. fold a.
  rewrite guard_positiveFinite, Hpos. cbn [negb].
  unfold bind at 1. unfold getCache at 1. fold B. rewrite Hlt.
  unfold bind at 1. unfold setBalance at 1.
  unfold bind at 1. rewrite currentUserId_identity.
  cbn [cache storage requests balance reserved totalIncome].
  change (identity _) with (identity w).
  destruct (identity w) as [uid |].
  - eexists. split.
    + unfold bind, getCache, fetchDetached, record, ret.
      cbn [cache storage requests balance reserved totalIncome].
      rewrite <- app_assoc. reflexivity.
    + eexists; eexists. repeat split.
  - exists []. split; [| reflexivity].
    unfold bind, getCache, ret.
    cbn [cache storage requests balance reserved totalIncome].
    rewrite app_nil_r. reflexivity.
Qed.


(** X5.  An accepted withdrawal never overdraws the cache: on a balance that is
    a number, whenever [withdraw] returns a snapshot the balance it leaves
    is not below zero. *)
Theorem accepted_withdraw_never_overdraws
        (host : Host) (w w' : World) (amount : JsValue) (s : WithdrawResult) :
  isDouble (balance (cache w)) = true ->
  isDouble (Js.ToNumber host amount) = true ->
  isNaN (balance (cache w)) = false ->
  Wallet.withdraw host amount w = (Returns (Some s), w') ->
  ge (balance (cache w')) zero = true /\ ge (wr_balance s) zero = true.
Proof.
  intros HB Ha Hnum Hrun.
  destruct (positiveFinite (Js.ToNumber host amount)
            && negb (lt (balance (cache w)) (Js.ToNumber host amount))) eqn:E.
  - apply andb_true_iff in E. destruct E as [Hpos Hlt].
    apply negb_true_iff in Hlt.
    destruct (withdraw_accepted host w amount Hpos Hlt) as (sent & Hacc & _).
    rewrite Hacc in Hrun. injection Hrun as <- <-.
    cbn [cache balance wr_balance]. unfold ge.
    assert (H : le zero (sub (balance (cache w)) (Js.ToNumber host amount)) = true).
    { apply sub_nonneg; try assumption.
      apply not_lt_ge; try assumption.
      apply positiveFinite_not_nan. exact Hpos. }
    split; exact H.
  - rewrite (withdraw_rejected host w amount E) in Hrun. discriminate Hrun.
Qed.

Lemma accepted_withdraw_never_overdraws_witness :
  exists s w',
    Wallet.withdraw vipHost (JNumber (ofZ 100)) signedIn = (Returns (Some s), w')
    /\ ge (balance (cache w')) zero = true.
Proof.
  destruct (Wallet.withdraw vipHost (JNumber (ofZ 100)) signedIn)
    as [[[s |] | e] w'] eqn:Hrun.
  - exists s, w'. split; [reflexivity |].
    apply (accepted_withdraw_never_overdraws
             vipHost signedIn w' (JNumber (ofZ 100)) s
             eq_refl eq_refl eq_refl Hrun).
  - exfalso. vm_compute in Hrun. discriminate Hrun.
  - exfalso. vm_compute in Hrun. discriminate Hrun.
Defined.

(** X6.  A signed-in, accepted withdrawal issues exactly two requests, in this
    order: a PATCH of [wallet_balances] carrying the balance the cache
    now holds (the new absolute value, not the amount), then the creation
    of a [withdraw_requests] row for the amount, in usdt over trc20 with
    an empty destination. *)
Theorem withdraw_mirrors_balance_then_files_request
        (host : Host) (w w' : World) (uid : string) (amount : JsValue)
        (s : WithdrawResult) :
  identity w = Some uid ->
  Wallet.withdraw host amount w = (Returns (Some s), w') ->
  exists r1 r2,
    requests w' = (requests w ++ [r1; r2])%list
    /\ req_method r1 = PATCH
    /\ req_url r1 = SB_url host +:+ "/rest/v1/wallet_balances?user_id=eq."
                    +:+ encodeURIComponent host uid
    /\ payloadField "usdt_balance" r1 = JNumber (balance (cache w'))
    /\ payloadField "updated_at" r1 = JString (nowISO host)
    /\ isWithdrawRequest host r2
    /\ payloadField "user_id" r2 = JString uid
    /\ payloadField "amount" r2 = JNumber (Js.ToNumber host amount)
    /\ payloadField "currency" r2 = JString "usdt"
    /\ payloadField "network" r2 = JString "trc20"
    /\ payloadField "to_address" r2 = JString ""
    /\ payloadField "address" r2 = JString "".
Proof.
  intros Hid Hrun.
  destruct (positiveFinite (Js.ToNumber host amount)
            && negb (lt (balance (cache w)) (Js.ToNumber host amount))) eqn:E.
  - apply andb_true_iff in E. destruct E as [Hpos Hlt].
    apply negb_true_iff in Hlt.
    destruct (withdraw_accepted host w amount Hpos Hlt) as (sent & Hacc & Hsent).
    rewrite Hid in Hsent.
    destruct Hsent as (r1 & r2 & -> & -> & Hw & _ & Hbody).
    rewrite Hacc in Hrun. injection Hrun as <- <-.
    exists (mkRequest PATCH
              (SB_url host +:+ "/rest/v1/wallet_balances?user_id=eq."
               +:+ encodeURIComponent host uid)
              (SB_headers host)
              (Some (JObject [ ("usdt_balance",
                                JNumber (sub (balance (cache w))
                                             (Js.ToNumber host amount)));
                               ("updated_at", JString (nowISO host)) ]))), r2.
    unfold payloadField. rewrite Hbody.
    repeat split; try reflexivity; apply Hw.
  - rewrite (withdraw_rejected host w amount E) in Hrun. discriminate Hrun.
Qed.

Lemma withdraw_mirrors_balance_then_files_request_witness :
  exists r1 r2,
    requests (after (Wallet.withdraw vipHost (JNumber (ofZ 20))) signedIn) = [r1; r2]
    /\ payloadField "usdt_balance" r1 = JNumber (ofZ 80)
    /\ payloadField "amount" r2 = JNumber (ofZ 20).
Proof.
  destruct (Wallet.withdraw vipHost (JNumber (ofZ 20)) signedIn)
    as [[[s |] | e] w'] eqn:Hrun.
  - destruct (withdraw_mirrors_balance_then_files_request
                vipHost signedIn w' "u1" (JNumber (ofZ 20)) s
                ltac:(vm_compute; reflexivity) Hrun)
      as (r1 & r2 & Hreq & _ & _ & Hbal & _ & _ & _ & Hamt & _).
    exists r1, r2. unfold after. rewrite Hrun. cbn [snd].
    split; [exact Hreq |]. split; [| exact Hamt].
    rewrite Hbal.
    assert (Hw : after (Wallet.withdraw vipHost (JNumber (ofZ 20))) signedIn = w')
      by (unfold after; rewrite Hrun; reflexivity).
    rewrite <- Hw. vm_compute. reflexivity.
  - exfalso. vm_compute in Hrun. discriminate Hrun.
  - exfalso. vm_compute in Hrun. discriminate Hrun.
Defined.

Lemma recordDeposit_rejected (host : Host) (w : World) (amount currency : JsValue) :
  positiveFinite (Js.ToNumber host amount) = false ->
  Wallet.recordDeposit host amount currency w = (Returns tt, w).
Proof.
  intros H. unfold Wallet.recordDeposit.
  rewrite guard_positiveFinite, H. reflexivity.
Qed.

Lemma recordDeposit_accepted (host : Host) (w : World) (amount currency : JsValue) :
  let a := Js.ToNumber host amount in
  let B := balance (cache w) in
  positiveFinite a = true ->
  Wallet.recordDeposit host amount currency w
  = (Returns tt,
     mkWorld (mkCache (add B a) (reserved (cache w)) (totalIncome (cache w)))
             (storage w)
             (requests w ++
              match identity w with
              | Some uid =>
                  [mkRequest PATCH
                     (SB_url host +:+ "/rest/v1/wallet_balances?user_id=eq."
                      +:+ encodeURIComponent host uid)
                     (SB_headers host)
                     (Some (JObject [ ("usdt_balance", JNumber (add B a));
                                      ("updated_at", JString (nowISO host)) ]))]
              | None => []
              end)).
Proof.
  intros a B Hpos. unfold Wallet.recordDeposit. fold a.
  rewrite guard_positiveFinite, Hpos. cbn [negb].
  unfold bind, getCache, setBalance. rewrite currentUserId_identity.
  change (identity _) with (identity w).
  destruct (identity w) as [uid |].
  - reflexivity.
  - unfold ret. rewrite app_nil_r. reflexivity.
Qed.

(** X7.  A signed-in deposit of a positive finite amount issues exactly one
    request: a PATCH of [wallet_balances] that carries the balance the
    cache now holds.  The call never throws. *)
Theorem recordDeposit_mirrors_new_balance
        (host : Host) (w : World) (uid : string) (amount currency : JsValue) :
  identity w = Some uid ->
  positiveFinite (Js.ToNumber host amount) = true ->
  outcome (Wallet.recordDeposit host amount currency) w = Returns tt
  /\ exists r,
       requests (after (Wallet.recordDeposit host amount currency) w)
       = (requests w ++ [r])%list
       /\ req_method r = PATCH
       /\ req_url r = SB_url host +:+ "/rest/v1/wallet_balances?user_id=eq."
                      +:+ encodeURIComponent host uid
       /\ payloadField "usdt_balance" r
          = JNumber (balance (cache (after (Wallet.recordDeposit host amount currency) w)))
       /\ payloadField "updated_at" r = JString (nowISO host).
Proof.
  intros Hid Hpos. unfold outcome, after.
  rewrite (recordDeposit_accepted host w amount currency Hpos), Hid.
  split; [reflexivity |].
  eexists. repeat split.
Qed.

Lemma recordDeposit_mirrors_new_balance_witness :
  exists r,
    requests (after (Wallet.recordDeposit vipHost (JNumber (ofZ 20)) JUndefined) signedIn)
    = [r]
    /\ payloadField "usdt_balance" r = JNumber (ofZ 120).
Proof.
  destruct (recordDeposit_mirrors_new_balance
              vipHost signedIn "u1" (JNumber (ofZ 20)) JUndefined
              ltac:(vm_compute; reflexivity) ltac:(vm_compute; reflexivity))
    as (_ & r & Hreq & _ & _ & Hbal & _).
  exists r. split; [exact Hreq |].
  rewrite Hbal. vm_compute. reflexivity.
Defined.

(** ** Income *)

Lemma addIncome_run (host : Host) (w : World) (n : JsValue) :
  let a := Js.ToNumber host n in
  let total := add (totalIncome (cache w)) (if positiveFinite a then a else one) in
  Wallet.addIncome host n w
  = (Returns tt,
     mkWorld (mkCache (balance (cache w)) (reserved (cache w)) total)
             (if ls_writable (storage w)
              then mkStorage (ls_readable (storage w)) true
                             (<["aiIncome" := NumberToString host total]>
                                (ls_items (storage w)))
              else storage w)
             (requests w)).
Proof.
  intros a total. unfold Wallet.addIncome. fold a.
  rewrite guard_positiveFinite.
  unfold bind, getCache, setTotalIncome, tryCatch, setItem, ret.
  cbn [cache storage requests balance reserved totalIncome Js.ToString].
  destruct (ls_writable (storage w)) eqn:E;
    destruct (positiveFinite a); reflexivity.
Qed.

(** X8.  [addIncome] with an argument whose number is not positive and finite
    (zero, negative, NaN, an infinity, nothing at all) does exactly what
    [addIncome(1)] does. *)
Theorem addIncome_defaults_to_one (host : Host) (w : World) (n : JsValue) :
  positiveFinite (Js.ToNumber host n) = false ->
  Wallet.addIncome host n w = Wallet.addIncome host (JNumber one) w.
Proof.
  intros H. rewrite !addIncome_run. cbn [Js.ToNumber]. rewrite H.
  reflexivity.
Qed.

Lemma addIncome_defaults_to_one_witness :
  Wallet.addIncome vipHost JUndefined signedIn
  = Wallet.addIncome vipHost (JNumber one) signedIn
  /\ totalIncome (cache (after (Wallet.addIncome vipHost JUndefined) signedIn)) = ofZ 4.
Proof.
  pose proof (addIncome_defaults_to_one vipHost signedIn JUndefined
                ltac:(vm_compute; reflexivity)) as H.
  split; [exact H |]. unfold after. rewrite H. vm_compute. reflexivity.
Defined.



(** ** Reading the stored income back *)

Lemma readDigits_acc (d : Decimal.uint) (acc : positive) :
  readDigits (DecimalString.NilEmpty.string_of_uint d) (Some (Zpos acc))
  = Some (Zpos (Pos.of_uint_acc d acc)).
Proof.
  revert acc. induction d; intros acc;
    cbn [DecimalString.NilEmpty.string_of_uint Pos.of_uint_acc readDigits];
    try reflexivity;
    change (Js.isDigit _) with true; cbn iota; rewrite <- IHd; f_equal; f_equal;
    unfold digitValue;
    match goal with
    | |- context [Z.of_nat (nat_of_ascii ?c)] =>
        let v := eval vm_compute in (Z.of_nat (nat_of_ascii c)) in
        change (Z.of_nat (nat_of_ascii c)) with v
    end; lia.
Qed.

Lemma readDigits_zero (d : Decimal.uint) :
  readDigits (DecimalString.NilEmpty.string_of_uint d) (Some 0%Z)
  = Some (Z.of_N (Pos.of_uint d)).
Proof.
  induction d;
    cbn [DecimalString.NilEmpty.string_of_uint Pos.of_uint readDigits];
    try reflexivity;
    change (Js.isDigit _) with true; cbn iota;
    try exact IHd;
    apply (readDigits_acc d).
Qed.

Lemma readDigits_numeral (d : Decimal.uint) :
  d <> Decimal.Nil ->
  readDigits (DecimalString.NilEmpty.string_of_uint d) None
  = Some (Z.of_N (Pos.of_uint d)).
Proof.
  destruct d; intros Hd; try congruence;
    cbn [DecimalString.NilEmpty.string_of_uint Pos.of_uint readDigits];
    change (Js.isDigit _) with true; cbn iota;
    try apply (readDigits_zero d);
    apply (readDigits_acc d).
Qed.

Lemma to_uint_nonnil (n : N) : N.to_uint n <> Decimal.Nil.
Proof.
  destruct n as [| p]; [discriminate | apply DecimalPos.Unsigned.to_uint_nonnil].
Qed.

(** A numeral starts with a digit: no white space and no sign to skip. *)
Lemma numeral_starts_with_digit (d : Decimal.uint) :
  d <> Decimal.Nil ->
  let s := DecimalString.NilEmpty.string_of_uint d in
  Js.trimStart s = s /\ Js.dropSign s = s
  /\ match s with String "-" _ => true | _ => false end = false.
Proof.
  destruct d; intros Hd; try congruence; repeat split.
Qed.

(** Reading back a decimal numeral gives the double nearest to the number
    it writes. *)
Lemma parseInt10_decimal (n : N) : parseInt10 (decimal n) = ofZ (Z.of_N n).
Proof.
  unfold parseInt10, decimal, DecimalString.NilZero.string_of_uint.
  pose proof (to_uint_nonnil n) as Hd.
  destruct (N.to_uint n) eqn:E; try congruence;
    rewrite <- E in *;
    destruct (numeral_starts_with_digit (N.to_uint n) Hd) as (-> & -> & ->);
    rewrite (readDigits_numeral (N.to_uint n) Hd);
    change (Pos.of_uint (N.to_uint n)) with (N.of_uint (N.to_uint n));
    rewrite DecimalN.Unsigned.of_to;
    destruct n; reflexivity.
Qed.

Lemma loadTotalIncome_run (w : World) :
  loadTotalIncome w
  = (Returns tt,
     match (if ls_readable (storage w) then ls_items (storage w) !! "aiIncome"
            else None) with
     | Some s =>
         if isNaN (parseInt10 s) then w
         else mkWorld (mkCache (balance (cache w)) (reserved (cache w)) (parseInt10 s))
                      (storage w) (requests w)
     | None => w
     end).
Proof.
  unfold loadTotalIncome, tryCatch, bind, getItem.
  destruct (ls_readable (storage w)); [| reflexivity].
  destruct (ls_items (storage w) !! "aiIncome") as [s |]; [| reflexivity].
  destruct (isNaN (parseInt10 s)); reflexivity.
Qed.

Lemma refreshWallet_keeps_totalIncome (host : Host) (w : World) :
  totalIncome (cache (after (Wallet.refreshWallet host) w)) = totalIncome (cache w).
Proof.
  apply (keeps_refreshWallet (fun w' => totalIncome (cache w') = totalIncome (cache w)));
    try reflexivity.
  - intros w0 r H. exact H.
  - intros w0 b H. exact H.
  - intros w0 r H. exact H.
Qed.

Lemma loadModule_totalIncome (host : Host) (st : LocalStorage) :
  totalIncome (cache (loadModule host st))
  = match (if ls_readable st then ls_items st !! "aiIncome" else None) with
    | Some s => if isNaN (parseInt10 s) then zero else parseInt10 s
    | None => zero
    end.
Proof.
  unfold loadModule, after.
  rewrite (bind_run _ _ _ _ _ (loadTotalIncome_run _)).
  change (snd (Wallet.refreshWallet host ?w)) with (after (Wallet.refreshWallet host) w).
  rewrite refreshWallet_keeps_totalIncome. cbn [storage].
  destruct (ls_readable st); [| reflexivity].
  destruct (ls_items st !! "aiIncome") as [s |]; [| reflexivity].
  destruct (isNaN (parseInt10 s)); reflexivity.
Qed.

(** X10.  When the script loads over a storage that holds the decimal numeral
    of a natural number under [aiIncome], the cache starts with that
    number (rounded to a double) as its [totalIncome]. *)
Theorem stored_income_is_read_back (host : Host) (st : LocalStorage) (n : N) :
  ls_readable st = true ->
  ls_items st !! "aiIncome" = Some (decimal n) ->
  totalIncome (cache (loadModule host st)) = ofZ (Z.of_N n).
Proof.
  intros Hr Hs. rewrite loadModule_totalIncome, Hr, Hs, parseInt10_decimal.
  unfold ofZ at 1. rewrite binary_normalize_not_nan. reflexivity.
Qed.

Lemma stored_income_is_read_back_witness :
  totalIncome (cache (loadModule vipHost (storedIncome "42"))) = ofZ 42.
Proof.
  apply (stored_income_is_read_back vipHost (storedIncome "42") 42%N);
    vm_compute; reflexivity.
Defined.

Lemma parseInt10_no_digit (s : string) :
  readDigits (Js.dropSign (Js.trimStart s)) None = None -> parseInt10 s = NaN.
Proof. unfold parseInt10. intros ->. reflexivity. Qed.

(** X11.  When the script loads, the cache starts from zero: [totalIncome] is 0
    if the storage cannot be read, holds nothing under [aiIncome], or
    holds a string with no leading integer; and with nobody signed in
    [balance] and [reserved] are 0 and no request has been issued. *)
Theorem load_starts_from_zero (host : Host) (st : LocalStorage) :
  (ls_readable st = false \/ ls_items st !! "aiIncome" = None ->
   totalIncome (cache (loadModule host st)) = zero)
  /\ (forall s,
         ls_items st !! "aiIncome" = Some s ->
         readDigits (Js.dropSign (Js.trimStart s)) None = None ->
         totalIncome (cache (loadModule host st)) = zero)
  /\ (identity (mkWorld Wallet.initialCache st []) = None ->
      balance (cache (loadModule host st)) = zero
      /\ reserved (cache (loadModule host st)) = zero
      /\ requests (loadModule host st) = []
      /\ storage (loadModule host st) = st).
Proof.
  split; [| split].
  - intros H. rewrite loadModule_totalIncome.
    destruct (ls_readable st); [| reflexivity].
    destruct H as [H | H]; [discriminate H | rewrite H; reflexivity].
  - intros s Hs Hd. rewrite loadModule_totalIncome, Hs.
    destruct (ls_readable st); [| reflexivity].
    rewrite (parseInt10_no_digit s Hd). reflexivity.
  - intros Hid. unfold loadModule, after.
    rewrite (bind_run _ _ _ _ _ (loadTotalIncome_run _)).
    rewrite refreshWallet_anonymous.
    + cbn [storage snd].
      destruct (if ls_readable st then ls_items st !! "aiIncome" else None) as [s |];
        [destruct (isNaN (parseInt10 s)) |]; repeat split.
    + cbn [storage].
      destruct (if ls_readable st then ls_items st !! "aiIncome" else None) as [s |];
        [destruct (isNaN (parseInt10 s)) |]; exact Hid.
Qed.

Lemma load_starts_from_zero_witness :
  cache (loadModule vipHost (storedIncome "lots")) = mkCache zero zero zero
  /\ totalIncome (cache (loadModule vipHost (storage signedIn))) = zero.
Proof.
  destruct (load_starts_from_zero vipHost (storedIncome "lots")) as (_ & Hs & Han).
  destruct (load_starts_from_zero vipHost (storage signedIn)) as (Hnone & _).
  split.
  - destruct (Han ltac:(vm_compute; reflexivity)) as (Hb & Hr & _).
    specialize (Hs "lots" ltac:(vm_compute; reflexivity) ltac:(vm_compute; reflexivity)).
    destruct (cache (loadModule vipHost (storedIncome "lots"))) as [b r t].
    cbn [balance reserved totalIncome] in Hb, Hr, Hs. rewrite Hb, Hr, Hs.
    reflexivity.
  - apply Hnone. right. vm_compute. reflexivity.
Defined.

(** X12.  The income survives a reload: after [addIncome] on a storage that can
    be written and read, loading the script again over that storage
    starts from the total the cache held, provided that total is a
    natural number which the runtime prints as its decimal numeral. *)
Theorem income_survives_reload (host : Host) (w : World) (v : JsValue) (n : N) :
  let w' := after (Wallet.addIncome host v) w in
  ls_writable (storage w) = true ->
  ls_readable (storage w) = true ->
  totalIncome (cache w') = ofZ (Z.of_N n) ->
  NumberToString host (ofZ (Z.of_N n)) = decimal n ->
  totalIncome (cache (loadModule host (storage w'))) = totalIncome (cache w').
Proof.
  intros w' Hw Hr Htotal Hprint.
  assert (Hst : ls_readable (storage w') = true
                /\ ls_items (storage w') !! "aiIncome"
                   = Some (NumberToString host (totalIncome (cache w')))).
  { unfold w', after. rewrite addIncome_run. cbn [snd storage cache totalIncome].
    rewrite Hw. cbn [ls_readable ls_items]. split; [exact Hr | apply lookup_insert_eq]. }
  destruct Hst as [Hr' Hs'].
  rewrite loadModule_totalIncome, Hr', Hs', Htotal, Hprint, parseInt10_decimal.
  unfold ofZ at 1. rewrite binary_normalize_not_nan. reflexivity.
Qed.

Lemma income_survives_reload_witness :
  totalIncome (cache (loadModule printingHost
                        (storage (after (Wallet.addIncome printingHost (JNumber (ofZ 2)))
                                        signedIn))))
  = ofZ 5.
Proof.
  rewrite (income_survives_reload printingHost signedIn (JNumber (ofZ 2)) 5%N
             eq_refl eq_refl ltac:(vm_compute; reflexivity)
             ltac:(vm_compute; reflexivity)).
  vm_compute. reflexivity.
Defined.

(** ** The cache holds numbers *)

Lemma refreshWallet_keeps_numeric (host : Host) :
  keeps (fun w => numericCache (cache w)) (Wallet.refreshWallet host).
Proof.
  unfold Wallet.refreshWallet.
  apply keeps_bind; [apply keeps_currentUserId | intros [uid |]];
    [| apply keeps_ret].
  apply keeps_tryCatch; [| intros e; apply keeps_ret].
  apply keeps_bind; [apply keeps_fetch; intros w r H; exact H | intros res].
  destruct (negb (res_ok res)); [apply keeps_ret |].
  apply keeps_bind; [apply keeps_json | intros rows].
  destruct (Js.isArray rows && _); [| apply keeps_ret].
  apply keeps_bind; [apply keeps_prop | intros b].
  apply keeps_bind; [apply keeps_prop | intros r].
  apply keeps_bind; [| intros _].
  - destruct (isNaN (Js.parseFloat host b)) eqn:E; cbn [negb]; [apply keeps_ret |].
    intros w (Hb & Hr & Ht). repeat split; assumption.
  - destruct (isNaN (Js.parseFloat host r)) eqn:E; cbn [negb]; [apply keeps_ret |].
    intros w (Hb & Hr & Ht). repeat split; assumption.
Qed.

Lemma loadModule_numeric (host : Host) (st : LocalStorage) :
  numericCache (cache (loadModule host st)).
Proof.
  unfold loadModule.
  apply (keeps_bind (fun w => numericCache (cache w))).
  - intros w (Hb & Hr & Ht). unfold after. rewrite loadTotalIncome_run. cbn [snd].
    destruct (if ls_readable (storage w) then _ else None) as [s |];
      [| repeat split; assumption].
    destruct (isNaN (parseInt10 s)) eqn:E; repeat split; assumption.
  - intros _. apply refreshWallet_keeps_numeric.
  - repeat split.
Qed.

(** X13.  No field of the cache is ever NaN: the cache the script loads with
    holds numbers, and every call of the public interface that starts
    from a cache holding numbers leaves one, whatever its arguments and
    whatever the remote side answers. *)
Theorem cache_never_holds_NaN (host : Host) :
  (forall st, numericCache (cache (loadModule host st)))
  /\ (forall c w,
         numericCache (cache w) ->
         numericCache (cache (after (perform host c) w))).
Proof.
  split; [apply loadModule_numeric |].
  intros c w Hnum.
  destruct (isRefreshing c) eqn:Hr; [| destruct (isBalanceUpdate c) eqn:Hb;
                                        [| destruct (isAddIncome c) eqn:Ha]].
  - destruct c; try discriminate Hr; cbn [perform]; apply keeps_discard;
      try exact Hnum.
    + apply keeps_getWalletAsync. apply refreshWallet_keeps_numeric.
    + apply keeps_getVipInfo.
      * intros w0 r H. exact H.
      * apply refreshWallet_keeps_numeric.
  - destruct Hnum as (HB & HR & HT).
    destruct c; try discriminate Hb; cbn [perform].
    + destruct (positiveFinite (Js.ToNumber host amount)) eqn:Hpos.
      * unfold after. rewrite (recordDeposit_accepted host w amount currency Hpos).
        repeat split; try assumption.
        apply add_not_nan; [exact HB | apply positiveFinite_isFinite; exact Hpos].
      * unfold after. rewrite (recordDeposit_rejected host w amount currency Hpos).
        repeat split; assumption.
    + rewrite after_discard.
      destruct (positiveFinite (Js.ToNumber host amount)
                && negb (lt (balance (cache w)) (Js.ToNumber host amount))) eqn:E.
      * apply andb_true_iff in E. destruct E as [Hpos Hlt].
        apply negb_true_iff in Hlt.
        destruct (withdraw_accepted host w amount Hpos Hlt) as (sent & Hacc & _).
        unfold after. rewrite Hacc.
        repeat split; try assumption.
        apply sub_not_nan; [exact HB | apply positiveFinite_isFinite; exact Hpos].
      * unfold after. rewrite (withdraw_rejected host w amount E).
        repeat split; assumption.
  - destruct Hnum as (HB & HR & HT).
    destruct c; try discriminate Ha. cbn [perform].
    unfold after. rewrite addIncome_run.
    repeat split; try assumption.
    apply add_not_nan; [exact HT |].
    destruct (positiveFinite (Js.ToNumber host n)) eqn:Hpos;
      [apply positiveFinite_isFinite; exact Hpos | reflexivity].
  - apply (keeps_perform (fun w' => numericCache (cache w')) host c);
      try assumption.
    + intros w0 r H. exact H.
    + intros [H | H]; congruence.
    + intros H. congruence.
Qed.

Lemma cache_never_holds_NaN_witness :
  numericCache (cache (after (perform vipHost (CallWithdraw (JNumber (ofZ 20))))
                             signedIn)).
Proof.
  destruct (cache_never_holds_NaN vipHost) as [_ H].
  apply (H (CallWithdraw (JNumber (ofZ 20))) signedIn).
  repeat split.
Defined.

(** ** Local updates against a refresh *)




(** ** The two foreground writes *)











(** X18.  Without an identity the two foreground writes fail with 'Not logged
    in' before anything else: no request, the world as before.  And
    [requestWithdraw] called without options (or with [null]) by a
    signed-in user throws a TypeError, again before any request. *)
Theorem foreground_writes_fail_before_sending (host : Host) (w : World) :
  (identity w = None ->
   (forall c n a,
       Wallet.addPayoutAddress host c n a w = (Throws (Error "Not logged in"), w))
   /\ (forall opts,
          Wallet.requestWithdraw host opts w = (Throws (Error "Not logged in"), w)))
  /\ (forall uid opts,
         identity w = Some uid ->
         opts = JUndefined \/ opts = JNull ->
         Wallet.requestWithdraw host opts w = (Throws TypeError, w)).
Proof.
  split.
  - intros Hid. split.
    + intros c n a. apply addPayoutAddress_anonymous. exact Hid.
    + intros opts. apply requestWithdraw_anonymous. exact Hid.
  - intros uid opts Hid Hopts. unfold Wallet.requestWithdraw.
    rewrite (bind_run _ _ _ _ _ (currentUserId_identity w)), Hid.
    destruct Hopts as [-> | ->]; reflexivity.
Qed.

Lemma foreground_writes_fail_before_sending_witness :
  Wallet.requestWithdraw vipHost (JObject []) anonymous
  = (Throws (Error "Not logged in"), anonymous)
  /\ Wallet.requestWithdraw vipHost JUndefined signedIn = (Throws TypeError, signedIn).
Proof.
  destruct (foreground_writes_fail_before_sending vipHost anonymous) as [Han _].
  destruct (foreground_writes_fail_before_sending vipHost signedIn) as [_ Hty].
  split.
  - apply (Han ltac:(vm_compute; reflexivity)).
  - apply (Hty "u1"); [vm_compute; reflexivity | left; reflexivity].
Defined.

(** ** The reads, answer by answer *)

Lemma listPayoutAddresses_signedIn (host : Host) (w : World) (uid : string) :
  identity w = Some uid ->
  Wallet.listPayoutAddresses host w
  = (match respond host (Wallet.payoutAddressesRequest host uid) with
     | Failed => Throws NetworkFailure
     | Answered res =>
         if res_ok res
         then match res_json res with
              | Some rows => Returns (if Js.isArray rows then Js.elements rows else [])
              | None => Throws SyntaxError
              end
         else Returns []
     end,
     record (Wallet.payoutAddressesRequest host uid) w).
Proof.
  intros Hid. unfold Wallet.listPayoutAddresses.
  rewrite (bind_run _ _ _ _ _ (currentUserId_identity w)), Hid.
  unfold bind, fetch. destruct (respond host _) as [| res]; [reflexivity |].
  destruct (res_ok res); [| reflexivity]. cbn [negb].
  unfold json. destruct (res_json res); reflexivity.
Qed.

(** X19.  For a signed-in user [listPayoutAddresses] issues exactly one GET and
    hands back the rows of a successful answer as they came, in their
    order, whatever they are; a body that is JSON but not an array counts
    as no rows, and a body that is not JSON rejects the call. *)
Theorem listPayoutAddresses_returns_rows_verbatim
        (host : Host) (w : World) (uid : string) (res : Response) :
  identity w = Some uid ->
  respond host (Wallet.payoutAddressesRequest host uid) = Answered res ->
  res_ok res = true ->
  after (Wallet.listPayoutAddresses host) w
  = record (Wallet.payoutAddressesRequest host uid) w
  /\ (forall rows,
         res_json res = Some (JArray rows) ->
         outcome (Wallet.listPayoutAddresses host) w = Returns rows)
  /\ (forall body,
         res_json res = Some body -> Js.isArray body = false ->
         outcome (Wallet.listPayoutAddresses host) w = Returns [])
  /\ (res_json res = None ->
      outcome (Wallet.listPayoutAddresses host) w = Throws SyntaxError).
Proof.
  intros Hid Hres Hok. unfold after, outcome.
  rewrite (listPayoutAddresses_signedIn host w uid Hid), Hres, Hok. cbn [fst snd].
  split; [reflexivity |]. split; [| split].
  - intros rows ->. reflexivity.
  - intros body -> Harr. rewrite Harr. reflexivity.
  - intros ->. reflexivity.
Qed.

Lemma listPayoutAddresses_returns_rows_verbatim_witness :
  outcome (Wallet.listPayoutAddresses
             (sampleHost (answering true (Some (JArray [JNull; JString "x"])))))
          signedIn
  = Returns [JNull; JString "x"].
Proof.
  destruct (listPayoutAddresses_returns_rows_verbatim
              (sampleHost (answering true (Some (JArray [JNull; JString "x"]))))
              signedIn "u1" _ ltac:(vm_compute; reflexivity) eq_refl eq_refl)
    as (_ & Hrows & _).
  apply Hrows. reflexivity.
Defined.

Lemma mapRows_null (rows : list JsValue) (w : World) :
  Exists (fun r => isRow r = false) rows ->
  Wallet.mapRows rows w = (Throws TypeError, w).
Proof.
  induction rows as [| r rows IH]; intros H; [inversion H |].
  cbn [Wallet.mapRows]. unfold bind, Wallet.prop.
  destruct (isRow r) eqn:Hr.
  - assert (Hrest : Exists (fun r => isRow r = false) rows)
      by (inversion H; subst; [congruence | assumption]).
    destruct r; try discriminate Hr; cbn [Js.getProp lift ret];
      unfold bind in IH; rewrite (IH Hrest); reflexivity.
  - destruct r; try discriminate Hr; reflexivity.
Qed.

(** X20.  [getTeamSummary] reads two properties off every row, so a [null] among
    the rows of a successful answer rejects the whole call with a
    TypeError: no partial list is returned.  A body that is JSON but not
    an array counts as no rows, and a body that is not JSON rejects the
    call.  In each case the one query has been issued. *)
Theorem getTeamSummary_needs_object_rows
        (host : Host) (w : World) (uid : string) (res : Response) :
  identity w = Some uid ->
  respond host (Wallet.teamRequest host uid) = Answered res ->
  res_ok res = true ->
  after (Wallet.getTeamSummary host) w = record (Wallet.teamRequest host uid) w
  /\ (forall rows,
         res_json res = Some (JArray rows) ->
         Exists (fun r => isRow r = false) rows ->
         outcome (Wallet.getTeamSummary host) w = Throws TypeError)
  /\ (forall body,
         res_json res = Some body -> Js.isArray body = false ->
         outcome (Wallet.getTeamSummary host) w = Returns (mkTeamSummary []))
  /\ (res_json res = None ->
      outcome (Wallet.getTeamSummary host) w = Throws SyntaxError).
Proof.
  intros Hid Hres Hok. unfold after, outcome.
  rewrite (getTeamSummary_signedIn host w uid Hid), Hres, Hok.
  split; [| split; [| split]].
  - destruct (res_json res) as [rows |]; [| reflexivity].
    unfold bind.
    pose proof (mapRows_outcome (if Js.isArray rows then Js.elements rows else [])
                  (record (Wallet.teamRequest host uid) w)
                  (record (Wallet.teamRequest host uid) w)) as [_ Ha].
    unfold after in Ha.
    destruct (Wallet.mapRows _ _) as [[ms | e] w1]; cbn [snd] in *; exact Ha.
  - intros rows -> Hnull. unfold bind. cbn [Js.isArray Js.elements].
    rewrite (mapRows_null rows _ Hnull). reflexivity.
  - intros body -> Harr. rewrite Harr. reflexivity.
  - intros ->. reflexivity.
Qed.

Lemma getTeamSummary_needs_object_rows_witness :
  outcome (Wallet.getTeamSummary
             (sampleHost (answering true
                            (Some (JArray [JObject [("depth", JNumber (ofZ 1))]; JNull])))))
          signedIn
  = Throws TypeError.
Proof.
  destruct (getTeamSummary_needs_object_rows
              (sampleHost (answering true
                             (Some (JArray [JObject [("depth", JNumber (ofZ 1))]; JNull]))))
              signedIn "u1" _ ltac:(vm_compute; reflexivity) eq_refl eq_refl)
    as (_ & Hnull & _).
  apply (Hnull [JObject [("depth", JNumber (ofZ 1))]; JNull] eq_refl).
  right. left. reflexivity.
Defined.

(** X21.  [getWalletAsync] never rejects and returns the cache as its refresh
    left it: the cache it found when nobody is signed in or the read
    failed, issuing no request in the first case. *)
Theorem getWalletAsync_returns_refreshed_cache (host : Host) (w : World) :
  exists w',
    Wallet.getWalletAsync host w = (Returns (cache w'), w')
    /\ w' = after (Wallet.refreshWallet host) w
    /\ (identity w = None -> w' = w)
    /\ (forall uid,
           identity w = Some uid ->
           readFails (respond host (Wallet.refreshRequest host uid)) = true ->
           cache w' = cache w).
Proof.
  destruct (getWalletAsync_returns host w) as (w' & Hrun & Hrefresh & _).
  exists w'. split; [exact Hrun |].
  assert (Hw' : w' = after (Wallet.refreshWallet host) w)
    by (unfold after; rewrite Hrefresh; reflexivity).
  split; [exact Hw' | split].
  - intros Hid. rewrite Hw'. unfold after.
    rewrite (refreshWallet_anonymous host w Hid). reflexivity.
  - intros uid Hid Hfail. rewrite Hw'. unfold after.
    rewrite (refreshWallet_failed_read host w uid Hid Hfail). reflexivity.
Qed.

Lemma getWalletAsync_returns_refreshed_cache_witness :
  outcome (Wallet.getWalletAsync (sampleHost unreachable)) signedIn
  = Returns (cache signedIn).
Proof.
  destruct (getWalletAsync_returns_refreshed_cache (sampleHost unreachable) signedIn)
    as (w' & Hrun & _ & _ & Hstale).
  unfold outcome. rewrite Hrun. cbn [fst].
  rewrite (Hstale "u1" ltac:(vm_compute; reflexivity) eq_refl). reflexivity.
Defined.

(** X22.  [getUser] never throws and touches nothing, and the id it reports is
    the identity on which every other call decides whether to talk to the
    remote side; when the storage cannot be read, both id and phone are
    [null]. *)
Theorem getUser_reports_the_identity (w : World) :
  exists u,
    Wallet.getUser w = (Returns u, w)
    /\ user_id u = identity w
    /\ (ls_readable (storage w) = true ->
        user_phone u = orNull (ls_items (storage w) !! "currentPhone"))
    /\ (ls_readable (storage w) = false -> u = mkUser None None).
Proof.
  unfold Wallet.getUser, tryCatch, bind, getItem, identity, ret.
  destruct (ls_readable (storage w)) eqn:E; rewrite ?E.
  - eexists. split; [reflexivity |]. repeat split. discriminate.
  - eexists. split; [reflexivity |]. repeat split. discriminate.
Qed.

Lemma getUser_reports_the_identity_witness :
  Wallet.getUser signedIn = (Returns (mkUser (Some "u1") None), signedIn).
Proof.
  destruct (getUser_reports_the_identity signedIn) as (u & Hrun & Hid & Hphone & _).
  rewrite Hrun. destruct u as [i p]. cbn [user_id user_phone] in *.
  rewrite Hid, (Hphone eq_refl). vm_compute. reflexivity.
Defined.



(** ** The membership snapshot *)

Lemma refreshWallet_signedIn (host : Host) (w : World) (uid : string) :
  identity w = Some uid ->
  exists c',
    Wallet.refreshWallet host w
    = (Returns tt,
       mkWorld c' (storage w) (requests w ++ [Wallet.refreshRequest host uid])).
Proof.
  intros Hid. unfold Wallet.refreshWallet.
  unfold bind at 1. rewrite currentUserId_identity, Hid.
  unfold tryCatch, bind, fetch.
  destruct (respond host _) as [| res]; [eexists; reflexivity |].
  destruct (res_ok res); [| eexists; reflexivity].
  cbn [negb]. unfold json.
  destruct (res_json res) as [rows |]; [| eexists; reflexivity].
  destruct rows as [| | b | n | s | [| row rest] | o];
    try (eexists; reflexivity).
  unfold Wallet.prop.
  destruct row as [| | b | n | s | l | o];
    cbn -[Js.parseFloat Wallet.refreshRequest];
    repeat match goal with
           | |- context [isNaN ?x] =>
               destruct (isNaN x); cbn -[Js.parseFloat Wallet.refreshRequest]
           end;
    eexists; reflexivity.
Qed.

(** The run of [getVipInfo] for a signed-in user whose membership read was
    answered, up to its team read. *)
Lemma getVipInfo_run (host : Host) (w : World) (uid : string)
      (res : Response) (stateRows : JsValue) :
  identity w = Some uid ->
  respond host (Wallet.userStateRequest host uid) = Answered res ->
  (if res_ok res then res_json res else Some (JArray [])) = Some stateRows ->
  let state := if Js.isArray stateRows && Js.ToBoolean (Js.first stateRows)
               then Js.first stateRows else JObject [] in
  let level := Js.orElse (propOr state "current_level") (JString "V0") in
  exists c2,
    let w2 := mkWorld c2 (storage w)
                      (requests w ++ [Wallet.userStateRequest host uid;
                                       Wallet.refreshRequest host uid]) in
    Wallet.getVipInfo host w
    = match Wallet.getTeamSummary host w2 with
      | (Returns team, w3) =>
          (Returns (mkVipInfo level (Wallet.nextOf level)
                              (Js.ToBoolean (propOr state "is_activated"))
                              (Js.ToBoolean (propOr state "is_funded"))
                              (Js.ToBoolean (propOr state "is_locked"))
                              (balance c2)
                              (List.length (List.filter (Wallet.countsAsEffective host)
                                                        (members team)))
                              Wallet.rules),
           w3)
      | (Throws e, w3) => (Throws e, w3)
      end.
Proof.
  intros Hid Hres Hrows state level.
  set (w1 := record (Wallet.userStateRequest host uid) w).
  assert (Hid1 : identity w1 = Some uid) by exact Hid.
  destruct (refreshWallet_signedIn host w1 uid Hid1) as (c2 & Hrefresh).
  exists c2. cbn zeta.
  assert (Hfetch : fetch host (Wallet.userStateRequest host uid) w = (Returns res, w1))
    by (unfold fetch; rewrite Hres; reflexivity).
  assert (Hjson : (if res_ok res then json res else ret (JArray [])) w1
                  = (Returns stateRows, w1)).
  { unfold json. destruct (res_ok res).
    - rewrite Hrows. reflexivity.
    - injection Hrows as <-. reflexivity. }
  assert (Hstate : Js.ToBoolean state = true \/ state = JObject []).
  { unfold state. destruct (Js.isArray stateRows); [| right; reflexivity].
    destruct (Js.ToBoolean (Js.first stateRows)) eqn:E;
      [left; exact E | right; reflexivity]. }
  assert (Hwallet : Wallet.getWalletAsync host w1
                    = (Returns c2,
                       mkWorld c2 (storage w)
                               (requests w ++ [Wallet.userStateRequest host uid;
                                                Wallet.refreshRequest host uid]))).
  { unfold Wallet.getWalletAsync. rewrite (bind_run _ _ _ _ _ Hrefresh).
    unfold Wallet.getWalletSync, bind, getCache, ret. cbn [cache storage requests w1 record].
    rewrite <- app_assoc. destruct c2; reflexivity. }
  unfold Wallet.getVipInfo.
  rewrite (bind_run _ _ _ _ _ (currentUserId_identity w)), Hid.
  rewrite (bind_run _ _ _ _ _ Hfetch).
  rewrite (bind_run _ _ _ _ _ Hjson). fold state.
  rewrite (bind_run _ _ _ _ _ Hwallet).
  destruct (Wallet.getTeamSummary host _) as [[team | e] w3] eqn:Hteam.
  - rewrite (bind_run _ _ _ _ _ Hteam).
    rewrite !(bind_run _ _ _ _ _ (prop_truthy state _ w3 Hstate)).
    reflexivity.
  - rewrite (bind_throw _ _ _ _ _ Hteam). reflexivity.
Qed.

Lemma getVipInfo_needs_an_answer (host : Host) (w w' : World) (uid : string)
      (v : VipInfo) :
  identity w = Some uid ->
  Wallet.getVipInfo host w = (Returns v, w') ->
  exists res stateRows,
    respond host (Wallet.userStateRequest host uid) = Answered res
    /\ (if res_ok res then res_json res else Some (JArray [])) = Some stateRows.
Proof.
  intros Hid H. unfold Wallet.getVipInfo in H.
  rewrite (bind_run _ _ _ _ _ (currentUserId_identity w)), Hid in H.
  apply bind_Returns in H. destruct H as (res & w1 & Hfetch & H).
  unfold fetch in Hfetch.
  destruct (respond host _) as [| res0]; [discriminate Hfetch |].
  injection Hfetch as <- <-.
  apply bind_Returns in H. destruct H as (stateRows & w2 & Hjson & _).
  exists res0, stateRows. split; [reflexivity |].
  unfold json in Hjson. destruct (res_ok res0).
  - destruct (res_json res0); [| discriminate Hjson].
    apply ret_Returns in Hjson. destruct Hjson as [-> _]. reflexivity.
  - apply ret_Returns in Hjson. destruct Hjson as [-> _]. reflexivity.
Qed.

(** X23.  A snapshot [getVipInfo] returns for a signed-in user is consistent
    with what the call left behind.  Exactly three requests were issued,
    all GET with the configured headers and no body, in this order:
    [user_state] (columns [current_level,is_activated,is_funded,is_locked],
    the user's row, limit 1), [wallet_balances] (columns
    [usdt_balance,usdt_reserved], the user's row, limit 1) and
    [invite_edges] (columns [descendant_id,depth], the user as ancestor,
    depth below 4).  The balance in the snapshot is the balance now in
    the cache; the effective users are no more than the edges the remote
    side returned; and the rule table is V1 (50, 0), V2 (500, 5),
    V3 (3000, 10), V4 (10000, 30), V5 (30000, 50), V6 (100000, 75). *)
Theorem getVipInfo_snapshot_is_consistent
        (host : Host) (w w' : World) (uid : string) (v : VipInfo) :
  let user := encodeURIComponent host uid in
  let stateRead :=
    mkRequest GET
      (SB_url host
       +:+ "/rest/v1/user_state?select=current_level,is_activated,is_funded,is_locked&user_id=eq."
       +:+ user +:+ "&limit=1")
      (SB_headers host) None in
  let balanceRead :=
    mkRequest GET
      (SB_url host
       +:+ "/rest/v1/wallet_balances?select=usdt_balance,usdt_reserved&user_id=eq."
       +:+ user +:+ "&limit=1")
      (SB_headers host) None in
  let teamRead :=
    mkRequest GET
      (SB_url host
       +:+ "/rest/v1/invite_edges?select=descendant_id,depth&ancestor_id=eq."
       +:+ user +:+ "&depth=lt.4")
      (SB_headers host) None in
  identity w = Some uid ->
  Wallet.getVipInfo host w = (Returns v, w') ->
  requests w' = (requests w ++ [stateRead; balanceRead; teamRead])%list
  /\ vip_balance v = balance (cache w')
  /\ (effectiveUsers v <= List.length (answeredRows (respond host teamRead)))%nat
  /\ rulesByLevel v
     = [ ("V1", mkTierRule (ofZ 50) (ofZ 0));
         ("V2", mkTierRule (ofZ 500) (ofZ 5));
         ("V3", mkTierRule (ofZ 3000) (ofZ 10));
         ("V4", mkTierRule (ofZ 10000) (ofZ 30));
         ("V5", mkTierRule (ofZ 30000) (ofZ 50));
         ("V6", mkTierRule (ofZ 100000) (ofZ 75)) ].
Proof.
  intros user stateRead balanceRead teamRead Hid H.
  assert (Hs : stateRead = Wallet.userStateRequest host uid) by reflexivity.
  assert (Hb : balanceRead = Wallet.refreshRequest host uid) by reflexivity.
  assert (Ht : teamRead = Wallet.teamRequest host uid) by reflexivity.
  rewrite Hs, Hb, Ht. clear Hs Hb Ht stateRead balanceRead teamRead.
  destruct (getVipInfo_needs_an_answer host w w' uid v Hid H)
    as (res & stateRows & Hres & Hrows).
  destruct (getVipInfo_run host w uid res stateRows Hid Hres Hrows) as (c2 & Hrun).
  cbn zeta in Hrun. rewrite Hrun in H. clear Hrun.
  destruct (Wallet.getTeamSummary host _) as [[team | e] w3] eqn:Hteam;
    [| discriminate H].
  injection H as <- <-.
  apply getTeamSummary_Returns with (uid := uid) in Hteam; [| exact Hid].
  destruct Hteam as [Hm ->].
  cbn [requests record cache vip_balance effectiveUsers rulesByLevel].
  split; [rewrite <- app_assoc; reflexivity |].
  split; [reflexivity |]. split; [| reflexivity].
  rewrite Hm. etransitivity; [apply List.filter_length_le |].
  rewrite length_map. reflexivity.
Qed.

(** The three reads of user [u1] against [https://sb.example], and the
    third tier of the table. *)
Lemma getVipInfo_snapshot_is_consistent_witness :
  exists v w',
    Wallet.getVipInfo vipHost signedIn = (Returns v, w')
    /\ map (fun r => (req_method r, req_url r, req_body r)) (requests w')
       = [ (GET, "https://sb.example/rest/v1/user_state?select=current_level,is_activated,is_funded,is_locked&user_id=eq.u1&limit=1", None);
           (GET, "https://sb.example/rest/v1/wallet_balances?select=usdt_balance,usdt_reserved&user_id=eq.u1&limit=1", None);
           (GET, "https://sb.example/rest/v1/invite_edges?select=descendant_id,depth&ancestor_id=eq.u1&depth=lt.4", None) ]
    /\ vip_balance v = balance (cache w')
    /\ balance (cache w') = ofZ 100
    /\ (effectiveUsers v <= 1)%nat
    /\ List.length (rulesByLevel v) = 6%nat
    /\ rulesByLevel v !! 2%nat = Some ("V3", mkTierRule (ofZ 3000) (ofZ 10)).
Proof.
  destruct (Wallet.getVipInfo vipHost signedIn) as [[v | e] w'] eqn:Hrun.
  - destruct (getVipInfo_snapshot_is_consistent vipHost signedIn w' "u1" v
                ltac:(vm_compute; reflexivity) Hrun)
      as (Hreq & Hbal & Heff & Hrules).
    exists v, w'. split; [reflexivity |].
    split; [rewrite Hreq; vm_compute; reflexivity |].
    split; [exact Hbal |].
    split; [vm_compute in Hrun; injection Hrun as _ <-; vm_compute; reflexivity |].
    split; [exact Heff |].
    split; rewrite Hrules; reflexivity.
  - exfalso. vm_compute in Hrun. discriminate Hrun.
Defined.

(** X24.  What the snapshot says without a usable membership row.  When the
    membership read succeeds with a body that is not an array, with an
    empty array, or with a falsy first element, the snapshot has level
    V0, next level V1 and all three flags off.  When there is a row, the
    flags are the truthiness of its fields, and a missing, [null] or empty
    [current_level] again gives V0 with next level V1. *)
Theorem getVipInfo_defaults_without_a_row
        (host : Host) (w w' : World) (uid : string) (res : Response)
        (body : JsValue) (v : VipInfo) :
  identity w = Some uid ->
  respond host (Wallet.userStateRequest host uid) = Answered res ->
  res_ok res = true ->
  res_json res = Some body ->
  Wallet.getVipInfo host w = (Returns v, w') ->
  (Js.isArray body = false \/ Js.ToBoolean (Js.first body) = false ->
   currentLevel v = JString "V0" /\ nextLevel v = Some "V1"
   /\ isActivated v = false /\ isFunded v = false /\ isLocked v = false)
  /\ (forall row rest,
         body = JArray (row :: rest) -> Js.ToBoolean row = true ->
         isActivated v = Js.ToBoolean (propOr row "is_activated")
         /\ isFunded v = Js.ToBoolean (propOr row "is_funded")
         /\ isLocked v = Js.ToBoolean (propOr row "is_locked")
         /\ (Js.ToBoolean (propOr row "current_level") = false ->
             currentLevel v = JString "V0" /\ nextLevel v = Some "V1")).
Proof.
  intros Hid Hres Hok Hjson H.
  assert (Hrows : (if res_ok res then res_json res else Some (JArray [])) = Some body)
    by (rewrite Hok; exact Hjson).
  destruct (getVipInfo_run host w uid res body Hid Hres Hrows) as (c2 & Hrun).
  cbn zeta in Hrun. rewrite Hrun in H. clear Hrun.
  destruct (Wallet.getTeamSummary host _) as [[team | e] w3]; [| discriminate H].
  injection H as <- <-. cbn [currentLevel nextLevel isActivated isFunded isLocked].
  split.
  - intros Hnone.
    assert (Hs : Js.isArray body && Js.ToBoolean (Js.first body) = false)
      by (destruct Hnone as [-> | ->]; [reflexivity | apply andb_false_r]).
    rewrite Hs. repeat split.
  - intros row rest -> Hrow. cbn [Js.isArray Js.first andb]. rewrite Hrow.
    split; [reflexivity |]. split; [reflexivity |]. split; [reflexivity |].
    intros Hlevel. unfold Js.orElse. rewrite Hlevel. split; reflexivity.
Qed.

Lemma getVipInfo_defaults_without_a_row_witness :
  exists v,
    outcome (Wallet.getVipInfo (sampleHost (answering true (Some (JArray []))))) signedIn
    = Returns v
    /\ currentLevel v = JString "V0" /\ nextLevel v = Some "V1".
Proof.
  destruct (Wallet.getVipInfo (sampleHost (answering true (Some (JArray [])))) signedIn)
    as [[v | e] w'] eqn:Hrun.
  - exists v. unfold outcome. rewrite Hrun. split; [reflexivity |].
    destruct (getVipInfo_defaults_without_a_row
                (sampleHost (answering true (Some (JArray [])))) signedIn w' "u1"
                _ (JArray []) v
                ltac:(vm_compute; reflexivity) eq_refl eq_refl eq_refl Hrun)
      as [Hdef _].
    destruct (Hdef ltac:(right; reflexivity)) as (Hc & Hn & _).
    split; assumption.
  - exfalso. vm_compute in Hrun. discriminate Hrun.
Defined.
